(** * vault operator diagnose: the pre-flight diagnostic run

    A shallow embedding of [command/operator_diagnose.go]
    ([OperatorDiagnoseCommand.RunWithParsedFlags]) together with the
    collaborators it calls.  The Go code is sequential and effectful: it
    mutates the receiver's [cleanupGuard], the local [config] captured by the
    check closures and the run-scoped span store of the [diagnose] package,
    and it calls out to the configuration loader, the listener factory, the
    storage factory, the UI and standard output.  The embedding threads a
    [State] explicitly and collects the outward calls, in order, in a trace of
    [Event]s. *)

From stdpp Require Import base list strings.
From Stdlib Require Import ZArith Lia.

Open Scope Z_scope.
Open Scope nat_scope.
Open Scope string_scope.
Open Scope list_scope.

(** Go's [error] interface value: [None] is [nil], [Some msg] an error whose
    [Error()] text is [msg]. *)
Definition error : Type := option string.

(** ** Data of the diagnose package (spans and reports) *)

Inductive Status : Type := st_ok | st_warn | st_error | st_skip.

Inductive Severity : Type := SevWarn | SevError.

Record Message : Type := mkMessage { severity : Severity; text : string }.

(** A span of the run-scoped store.  The store is the ordered sequence of all
    spans of the run; a span's [id] is its position in the store and its
    children are the later spans that name it as [parentId], in insertion
    order.  Start and end times are abstracted to the [ended] flag. *)
Record Span : Type := mkSpan {
  id : nat;
  name : string;
  parentId : option nat;
  status : Status;
  messages : list Message;
  ended : bool
}.

Record Report : Type := mkReport {
  tree : list Span;
  flat : list (list string * Message)
}.

#[global] Instance Status_eq_dec : EqDecision Status.
Proof. solve_decision. Defined.
#[global] Instance Severity_eq_dec : EqDecision Severity.
Proof. solve_decision. Defined.
#[global] Instance Message_eq_dec : EqDecision Message.
Proof. solve_decision. Defined.

(** ** Data of the server configuration and of the listeners *)

Module cserver.
(** [configutil.Listener]: one listener stanza of the configuration. *)
Record ListenerConfig : Type := mkListenerConfig {
  Type_ : string;
  Address : string;
  TLSDisable : bool;
  TLSDisableClientCerts : bool
}.

Record HAStorageConfig : Type := mkHAStorage { DisableClustering : bool }.

(** [cserver.Config], restricted to the fields the command reads; the
    storage stanza is carried as an opaque text. *)
Record Config : Type := mkConfig {
  Listeners : list ListenerConfig;
  HAStorage : option HAStorageConfig;
  Storage : string
}.

(** [configutil.ConfigError], represented by what its [String()] renders. *)
Record ConfigError : Type := mkConfigError { cerr_String : string }.
End cserver.

Module listenerutil.
(** [listenerutil.Listener]: a bound [net.Listener] (a handle) and the
    stanza it was built from. *)
Record Listener : Type := mkListener {
  ln_Listener : nat;
  ln_Config : cserver.ListenerConfig
}.
End listenerutil.

#[global] Instance ListenerConfig_eq_dec : EqDecision cserver.ListenerConfig.
Proof. solve_decision. Defined.
#[global] Instance Listener_eq_dec : EqDecision listenerutil.Listener.
Proof. solve_decision. Defined.

(** ** The command, the state of a run and its trace *)

Module sync.
(** [sync.Once]: [done] is set by the first [Do]. *)
Record Once : Type := mkOnce { done : bool }.
End sync.

Record OperatorDiagnoseCommand : Type := mkCommand {
  flagDebug : bool;
  flagSkips : list string;
  flagConfigs : list string;
  cleanupGuard : sync.Once
}.

Inductive Writer : Type := os_Stdout.

(** Calls that leave the function, in the order they happen. *)
Inductive Event : Type :=
| UIError (msg : string)
| UIOutput (msg : string)
| ParseConfigCall (paths : list string)
| ListenerOpen (h : nat)
| ListenerClose (h : nat)
| TLSConfigCall (lc : cserver.ListenerConfig)
| ListenerChecksCall (lns : list listenerutil.Listener)
| SetupStorageCall (cfg : cserver.Config)
| CheckInvoked (check : string)
| CheckReturned (check : string) (err : error)
| DiagShutdown
| ReportWrite (w : Writer) (r : Report).

Record State : Type := mkState {
  cmd : OperatorDiagnoseCommand;      (* the receiver [c] *)
  config : option cserver.Config;     (* the local [config], captured by the closures *)
  session : list Span                 (* the span store of package diagnose *)
}.

(** State passing with a trace: a computation maps the state to its result,
    the new state and the events it emitted. *)
Definition M (A : Type) : Type := State -> A * State * list Event.

#[global] Instance M_ret : MRet M := fun A a s => (a, s, []).
#[global] Instance M_bind : MBind M := fun A B k m s =>
  let '(a, s1, t1) := m s in
  let '(b, s2, t2) := k a s1 in
  (b, s2, t1 ++ t2).

Definition emit (e : Event) : M unit := fun s => (tt, s, [e]).
Definition gets {A : Type} (f : State -> A) : M A := fun s => (f s, s, []).
Definition modify (f : State -> State) : M unit := fun s => (tt, f s, []).

Definition set_cmd (c : OperatorDiagnoseCommand) (s : State) : State :=
  mkState c (config s) (session s).
Definition set_config (cfg : option cserver.Config) (s : State) : State :=
  mkState (cmd s) cfg (session s).
Definition set_session (spans : list Span) (s : State) : State :=
  mkState (cmd s) (config s) spans.
Definition modify_session (f : list Span -> list Span) : M unit :=
  modify (fun s => set_session (f (session s)) s).

(** Go's [defer d] around [body]: [d] runs when [body] returns, and the
    returned value is the body's. *)
Definition defer {A : Type} (d : M unit) (body : M A) : M A :=
  r ← body; d;; mret r.

(** [for _, x := range xs { f x }] without early exit. *)
Fixpoint forM_ {A : Type} (xs : list A) (f : A -> M unit) : M unit :=
  match xs with
  | [] => mret tt
  | x :: rest => f x;; forM_ rest f
  end.

(** Projections of a finished computation. *)
Definition result {A : Type} (r : A * State * list Event) : A := r.1.1.
Definition final {A : Type} (r : A * State * list Event) : State := r.1.2.
Definition trace {A : Type} (r : A * State * list Event) : list Event := r.2.

(** ** Package diagnose: the span store and the check runner

    [vault/diagnose] is not among the sources at hand; its operations are
    modelled from the specification's sections 3, 4.1 and 4.2. *)

Module diagnose.

(** Modelled from the spec: a context carries the span active in it (section
    4.1, "context-carried span identity"); the background context of the
    caller carries none. *)
Definition Context : Type := option nat.
(** Modelled from the spec: [context.Background()], no span active. *)
Definition Background : Context := None.

(** Modelled from the spec: the three ways a span of the store changes
    (its status, its end, its messages). *)
Definition with_status (st : Status) (sp : Span) : Span :=
  mkSpan (id sp) (name sp) (parentId sp) st (messages sp) (ended sp).
Definition with_ended (sp : Span) : Span :=
  mkSpan (id sp) (name sp) (parentId sp) (status sp) (messages sp) true.
Definition add_message (m : Message) (sp : Span) : Span :=
  mkSpan (id sp) (name sp) (parentId sp) (status sp) (messages sp ++ [m]) (ended sp).

(** Modelled from the spec: the ordering [error > warn > skip > ok] of
    section 3. *)
Definition rank (st : Status) : nat :=
  match st with st_ok => 0 | st_skip => 1 | st_warn => 2 | st_error => 3 end.
Definition worst (a b : Status) : Status := if Nat.ltb (rank a) (rank b) then b else a.

(** Modelled from the spec: the status a message of a given severity stands
    for. *)
Definition severity_status (m : Message) : Status :=
  match severity m with SevWarn => st_warn | SevError => st_error end.

(** Modelled from the spec: the children of span [i], in insertion order. *)
Definition children (i : nat) (spans : list Span) : list Span :=
  filter (fun sp => parentId sp = Some i) spans.

(** Modelled from the spec: the status invariant of section 3 ("the worst of
    its own message severities and its children's statuses"), on top of the
    status the span was marked with. *)
Definition aggregate (spans : list Span) (sp : Span) : Status :=
  foldr worst (status sp)
        (map severity_status (messages sp) ++ map status (children (id sp) spans)).

(** Modelled from the spec: [End] "recomputes status bottom-up into
    ancestors": the status of span [i], then of its ancestors.  A parent is
    older than its child, so the length of the store bounds the walk. *)
Fixpoint recompute_up (fuel : nat) (i : nat) (spans : list Span) : list Span :=
  match fuel with
  | 0 => spans
  | S fuel' =>
      match spans !! i with
      | None => spans
      | Some sp =>
          let spans' := alter (with_status (aggregate spans sp)) i spans in
          match parentId sp with
          | None => spans'
          | Some p => recompute_up fuel' p spans'
          end
      end
  end.

(** Modelled from the spec: what [End] does to the store. *)
Definition end_span (i : nat) (spans : list Span) : list Span :=
  let spans' := alter with_ended i spans in
  recompute_up (length spans') i spans'.

(** Modelled from the spec: [Init()] resets the run-scoped state. *)
Definition Init : M unit := modify_session (fun _ => []).

(** Modelled from the spec: [StartSpan(currentContext, name)] creates a span
    as a child of the span active in the context and returns the child
    context and the span handle. *)
Definition StartSpan (ctx : Context) (name : string) : M (Context * nat) :=
  spans ← gets session;
  let i := length spans in
  modify (set_session (spans ++ [mkSpan i name ctx st_ok [] false]));;
  mret (Some i, i).

(** Modelled from the spec: [spanHandle.End()]. *)
Definition End (span : nat) : M unit := modify_session (end_span span).

(** Modelled from the spec: appending a message of the given severity to the
    span active in the context; with no span active nothing is recorded. *)
Definition record (sev : Severity) (ctx : Context) (text : string) : M unit :=
  match ctx with
  | None => mret tt
  | Some i => modify_session (alter (add_message (mkMessage sev text)) i)
  end.

(** Modelled from the spec: [Warn(context, text)] and [Error(context, text)]
    append a message to the span active in the context; neither returns
    anything to the caller. *)
Definition Warn (ctx : Context) (text : string) : M unit := record SevWarn ctx text.
Definition Error (ctx : Context) (text : string) : M unit := record SevError ctx text.

(** Modelled from the spec: marking a span ([skip] or [error]) as the check
    runner does. *)
Definition SetStatus (span : nat) (st : Status) : M unit :=
  modify_session (alter (with_status st) span).

(** Modelled from the spec: the span path of the report's flat list, the
    names on the way from the root to span [i]. *)
Fixpoint span_path (fuel : nat) (spans : list Span) (i : nat) : list string :=
  match fuel with
  | 0 => []
  | S fuel' =>
      match spans !! i with
      | None => []
      | Some sp =>
          match parentId sp with
          | None => [name sp]
          | Some p => span_path fuel' spans p ++ [name sp]
          end
      end
  end.

(** Modelled from the spec: the flat list of (spanPath, message) pairs of a
    report. *)
Definition flatten (spans : list Span) : list (list string * Message) :=
  concat (map (fun sp =>
                 map (fun m => (span_path (length spans) spans (id sp), m))
                     (messages sp))
              spans).

(** Modelled from the spec: [Shutdown] "closes any still-open spans"; the
    youngest first, so that statuses reach the ancestors. *)
Definition close_open (spans : list Span) : list Span :=
  foldr (fun i acc =>
           match acc !! i with
           | Some sp => if ended sp then acc else end_span i acc
           | None => acc
           end)
        spans (seq 0 (length spans)).

(** Modelled from the spec: [Shutdown()] finalizes the tree, closes any
    still-open span and returns the snapshot. *)
Definition Shutdown : M Report :=
  spans ← gets session;
  let finalized := close_open spans in
  modify (set_session finalized);;
  emit DiagShutdown;;
  mret (mkReport finalized (flatten finalized)).

(** Modelled from the spec: [Report.Write(output)]; the event carries the
    report that is serialized. *)
Definition Report_Write (r : Report) (w : Writer) : M unit := emit (ReportWrite w r).

(** Modelled from the spec: the check runner [Test(context, name, skipSet,
    checkFn)] of section 4.2. *)
Definition TestSkipping (skipSet : list string) (ctx : Context) (name : string)
    (checkFn : Context -> M error) : M error :=
  if decide (name ∈ skipSet) then
    '(_, span) ← StartSpan ctx name;
    SetStatus span st_skip;;
    End span;;
    mret None
  else
    '(ctx', span) ← StartSpan ctx name;
    emit (CheckInvoked name);;
    err ← checkFn ctx';
    emit (CheckReturned name err);;
    match err with
    | Some e =>
        SetStatus span st_error;;
        Error ctx' e;;
        End span;;
        mret (Some e)
    | None =>
        End span;;
        mret None
    end.

(** Modelled from the spec: [diagnose.Test(ctx, spanName, function)] as the
    command calls it, with three arguments: no skip set reaches the check
    runner, so it runs with none. *)
Definition Test (ctx : Context) (name : string) (checkFn : Context -> M error) : M error :=
  TestSkipping [] ctx name checkFn.

End diagnose.

(** ** The collaborators of the command

    What the configuration loader, the listener factory, the TLS builder, the
    structural listener validation and the storage factory answer is outside
    the command; a run is taken relative to an environment that fixes their
    answers. *)

Record Env : Type := mkEnv {
  (* [server.parseConfig()] on the given paths: a configuration or a fatal error *)
  parseConfig : list string -> cserver.Config + string;
  (* [config.Validate(source)] *)
  Validate : cserver.Config -> string -> list cserver.ConfigError;
  (* binding listener number [i] of the configuration: [nil] or the bind error *)
  NewListener : nat -> cserver.ListenerConfig -> error;
  (* the error result of [listenerutil.TLSConfig] *)
  TLSConfig : cserver.ListenerConfig -> error;
  (* [diagnose.ListenerChecks] *)
  ListenerChecks : list listenerutil.Listener -> error;
  (* the error result of [server.setupStorage] *)
  setupStorage : cserver.Config -> error;
  (* [version.GetVersion().FullVersionNumber(true)] *)
  FullVersionNumber : string
}.

Section Command.

Variable E : Env.

(** [c.UI.Error(msg)] and [c.UI.Output(msg)] *)
Definition UI_Error (msg : string) : M unit := emit (UIError msg).
Definition UI_Output (msg : string) : M unit := emit (UIOutput msg).

(** [c.cleanupGuard.Do(f)]: [sync.Once.Do] on the receiver's guard calls [f]
    if and only if [Do] is called for the first time on this guard. *)
Definition cleanupGuard_Do (f : M unit) : M unit :=
  c ← gets cmd;
  if sync.done (cleanupGuard c) then mret tt
  else
    f;;
    modify (fun s => set_cmd (mkCommand (flagDebug (cmd s)) (flagSkips (cmd s))
                                        (flagConfigs (cmd s)) (sync.mkOnce true)) s).

(** [ln.Listener.Close()] *)
Definition Listener_Close (h : nat) : M unit := emit (ListenerClose h).

(** The calls of the collaborators: each is recorded in the trace and
    answered by the environment.  [server.parseConfig()] reads the paths from
    [server.flagConfigs], which line 154 sets to [c.flagConfigs]. *)
Definition server_parseConfig (paths : list string) : M (cserver.Config + string) :=
  emit (ParseConfigCall paths);;
  mret (parseConfig E paths).

(** [listenerutil.TLSConfig(ln.Config, ..., c.UI)], of which line 203 keeps
    the error only. *)
Definition listenerutil_TLSConfig (lc : cserver.ListenerConfig) : M error :=
  emit (TLSConfigCall lc);;
  mret (TLSConfig E lc).

(** [diagnose.ListenerChecks(sanitizedListeners)] *)
Definition diagnose_ListenerChecks (lns : list listenerutil.Listener) : M error :=
  emit (ListenerChecksCall lns);;
  mret (ListenerChecks E lns).

(** [server.setupStorage(config)], of which line 225 keeps the error only. *)
Definition server_setupStorage (cfg : cserver.Config) : M error :=
  emit (SetupStorageCall cfg);;
  mret (setupStorage E cfg).

(** Modelled from the spec: [ServerCommand.InitListeners] (command/server.go
    is not among the sources at hand), section 4.3: each configured listener
    is bound for real, in configuration order, and a bind failure is fatal for
    the whole call.  The handle of a bound listener is its position in the
    configuration.  Nothing is closed here: only the cleanup guard closes
    listeners (section 5). *)
Fixpoint bindListeners (i : nat) (stanzas : list cserver.ListenerConfig)
    (lns : list listenerutil.Listener) : M (list listenerutil.Listener * error) :=
  match stanzas with
  | [] => mret (lns, None)
  | lnConfig :: rest =>
      match NewListener E i lnConfig with
      | Some e => mret ([], Some e)
      | None =>
          emit (ListenerOpen i);;
          bindListeners (S i) rest (lns ++ [listenerutil.mkListener i lnConfig])
      end
  end.

(** Modelled from the spec: [server.InitListeners(ctx, config,
    disableClustering, &infoKeys, &info)]; the two out-parameters are not
    read by the command afterwards. *)
Definition InitListeners (ctx : diagnose.Context) (config : cserver.Config)
    (disableClustering : bool) : M (list listenerutil.Listener * error) :=
  bindListeners 0 (cserver.Listeners config) [].

(** *** The three check functions of [RunWithParsedFlags] *)

(** Lines 153-165: the closure passed to the "Parse configuration" check. *)
Definition parseConfigurationCheck (ctx : diagnose.Context) : M error :=
  c ← gets cmd;
  parsed ← server_parseConfig (flagConfigs c);
  match parsed with
  | inr e =>
      modify (set_config None);;
      mret (Some e)
  | inl cfg =>
      modify (set_config (Some cfg));;
      let err : error := None in
      let errors := Validate E cfg "test" in
      forM_ errors (fun cerr => diagnose.Warn ctx (cserver.cerr_String cerr));;
      mret err
  end.

(** Lines 182-186: closes every listener of [lns]. *)
Definition listenerCloseFunc (lns : list listenerutil.Listener) : M unit :=
  forM_ lns (fun ln => Listener_Close (listenerutil.ln_Listener ln)).

(** How one pass through the body of the loop of lines 191-212 ends:
    [continue] or fall-through with the sanitized listeners so far, or
    [return] of an error. *)
Inductive LoopStep : Type :=
| Continue (sanitizedListeners : list listenerutil.Listener)
| Return (err : string).

(** Lines 192-211: the body of the loop, for one listener. *)
Definition listenerStep (ctx : diagnose.Context) (ln : listenerutil.Listener)
    (sanitizedListeners : list listenerutil.Listener) : M LoopStep :=
  if cserver.TLSDisable (listenerutil.ln_Config ln) then
    diagnose.Warn ctx "TLS is disabled in a Listener config stanza.";;
    mret (Continue sanitizedListeners)
  else
    (if cserver.TLSDisableClientCerts (listenerutil.ln_Config ln)
     then diagnose.Warn ctx "TLS for a listener is turned on without requiring client certs."
     else mret tt);;
    err ← listenerutil_TLSConfig (listenerutil.ln_Config ln);
    match err with
    | Some e =>
        mret (Return ("error creating TLS Configuration out of config file: " +:+ e))
    | None =>
        mret (Continue (sanitizedListeners ++
                [listenerutil.mkListener (listenerutil.ln_Listener ln)
                                         (listenerutil.ln_Config ln)]))
    end.

(** Lines 191-212: the loop over [lns]. *)
Fixpoint forListeners (ctx : diagnose.Context) (lns : list listenerutil.Listener)
    (sanitizedListeners : list listenerutil.Listener)
  : M (string + list listenerutil.Listener) :=
  match lns with
  | [] => mret (inr sanitizedListeners)
  | ln :: rest =>
      step ← listenerStep ctx ln sanitizedListeners;
      match step with
      | Return e => mret (inl e)
      | Continue sanitizedListeners' => forListeners ctx rest sanitizedListeners'
      end
  end.

(** Lines 176-214: the closure passed to the "init-listeners" check. *)
Definition initListenersCheck (config : cserver.Config) (disableClustering : bool)
    (ctx : diagnose.Context) : M error :=
  '(lns, err) ← InitListeners ctx config disableClustering;
  match err with
  | Some e => mret (Some e)
  | None =>
      defer (cleanupGuard_Do (listenerCloseFunc lns))
        (looped ← forListeners ctx lns [];
         match looped with
         | inl e => mret (Some e)
         | inr sanitizedListeners => diagnose_ListenerChecks sanitizedListeners
         end)
  end.

(** Lines 224-227: the closure passed to the "storage" check. *)
Definition storageCheck (config : cserver.Config) (ctx : diagnose.Context) : M error :=
  server_setupStorage config.

(** Lines 129-231: what [RunWithParsedFlags] does under its deferred
    finalization, from the one-off error to the exit code.  The option
    [diagnose.Action("one-off")] of the first call is not modelled, and the
    [ServerCommand] literal of lines 131-150 has no effect of its own.  The local
    [config] is a pointer that the first closure assigns; reading through it
    while it is [nil] would panic, which ends the process with status 2 after
    the deferred calls ([exit_is_0_or_1] shows that this does not happen). *)
Definition runChecks (ctx : diagnose.Context) : M Z :=
  diagnose.Error ctx "nope, didn't work";;
  UI_Output (FullVersionNumber E);;
  modify (set_config None);;
  err ← diagnose.Test ctx "Parse configuration" parseConfigurationCheck;
  if err is Some _ then mret 1%Z else
  config ← gets config;
  match config with
  | None => mret 2%Z
  | Some config =>
      let disableClustering :=
        match cserver.HAStorage config with
        | Some ha => cserver.DisableClustering ha
        | None => false
        end in
      err ← diagnose.Test ctx "init-listeners"
              (initListenersCheck config disableClustering);
      if err is Some _ then mret 1%Z else
      err ← diagnose.Test ctx "storage" (storageCheck config);
      if err is Some _ then mret 1%Z else
      mret 0%Z
  end.

(** Lines 115-232.  The receiver is [cmd] of the state. *)
Definition RunWithParsedFlags : M Z :=
  c ← gets cmd;
  if decide (length (flagConfigs c) = 0) then
    UI_Error "Must specify a configuration file using -config.";;
    mret 1%Z
  else
    diagnose.Init;;
    let ctx := diagnose.Background in
    '(ctx, span) ← diagnose.StartSpan ctx "initialization";
    defer (diagnose.End span;;
           r ← diagnose.Shutdown;
           diagnose.Report_Write r os_Stdout)
      (runChecks ctx).

End Command.

(** ** Observations on traces and sessions *)

(** The reports written to standard output, in order. *)
Definition written (t : list Event) : list Report :=
  omap (fun e => match e with ReportWrite os_Stdout r => Some r | _ => None end) t.

(** How often the reporter was shut down. *)
Definition shutdowns (t : list Event) : nat :=
  length (omap (fun e => match e with DiagShutdown => Some tt | _ => None end) t).

(** The checks whose check function was invoked, in order. *)
Definition invoked (t : list Event) : list string :=
  omap (fun e => match e with CheckInvoked n => Some n | _ => None end) t.

(** The checks whose check function returned, with the error returned. *)
Definition returned (t : list Event) : list (string * error) :=
  omap (fun e => match e with CheckReturned n err => Some (n, err) | _ => None end) t.

(** Invocations and returns of check functions, other events dropped. *)
Definition check_events (t : list Event) : list Event :=
  omap (fun e => match e with
                 | CheckInvoked _ | CheckReturned _ _ => Some e
                 | _ => None
                 end) t.

(** The listeners bound and the listeners closed, in order. *)
Definition opened (t : list Event) : list nat :=
  omap (fun e => match e with ListenerOpen h => Some h | _ => None end) t.
Definition closed (t : list Event) : list nat :=
  omap (fun e => match e with ListenerClose h => Some h | _ => None end) t.

(** The arguments of the calls of the storage factory and of the structural
    listener validation. *)
Definition storage_calls (t : list Event) : list cserver.Config :=
  omap (fun e => match e with SetupStorageCall cfg => Some cfg | _ => None end) t.
Definition validated (t : list Event) : list (list listenerutil.Listener) :=
  omap (fun e => match e with ListenerChecksCall lns => Some lns | _ => None end) t.

(** Events of the listener factory, the TLS builder and the structural
    validation: what the body of a check may emit besides closing listeners. *)
Definition probe_event (e : Event) : Prop :=
  match e with
  | TLSConfigCall _ | ListenerChecksCall _ => True
  | _ => False
  end.

(** What [End], [SetStatus] and [Shutdown] leave alone in a span. *)
Definition skeleton (sp : Span) : string * option nat * list Message :=
  (name sp, parentId sp, messages sp).

Definition sk_add (ms : list Message) (k : string * option nat * list Message)
  : string * option nat * list Message :=
  (k.1.1, k.1.2, k.2 ++ ms).

Definition warning (text : string) : Message := mkMessage SevWarn text.

(** The two events a check contributes around the events of its function. *)
Definition bracket (c : string * error) : list Event :=
  [CheckInvoked c.1; CheckReturned c.1 c.2].

Definition check_names : list string :=
  ["Parse configuration"; "init-listeners"; "storage"].

(** How the check runner leaves the store when the check function has
    returned [err]. *)
Definition finish_span (n : nat) (err : error) (spans : list Span) : list Span :=
  match err with
  | Some e =>
      diagnose.end_span n
        (alter (diagnose.add_message (mkMessage SevError e)) n
               (alter (diagnose.with_status st_error) n spans))
  | None => diagnose.end_span n spans
  end.

(** The listeners [bindListeners] hands back when every bind succeeds. *)
Definition bound (i : nat) (stanzas : list cserver.ListenerConfig)
  : list listenerutil.Listener :=
  zip_with listenerutil.mkListener (seq i (length stanzas)) stanzas.

(** The state once the cleanup guard has fired. *)
Definition release (s : State) : State :=
  set_cmd (mkCommand (flagDebug (cmd s)) (flagSkips (cmd s)) (flagConfigs (cmd s))
                     (sync.mkOnce true)) s.

(** The warnings one pass of the listener loop records. *)
Definition step_warnings (ln : listenerutil.Listener) : list Message :=
  if cserver.TLSDisable (listenerutil.ln_Config ln)
  then [warning "TLS is disabled in a Listener config stanza."]
  else if cserver.TLSDisableClientCerts (listenerutil.ln_Config ln)
       then [warning "TLS for a listener is turned on without requiring client certs."]
       else [].

Definition tls_enabled (ln : listenerutil.Listener) : Prop :=
  cserver.TLSDisable (listenerutil.ln_Config ln) = false.

#[global] Instance tls_enabled_dec ln : Decision (tls_enabled ln).
Proof. unfold tls_enabled. apply _. Defined.

Definition is_warning (m : Message) : Prop := severity m = SevWarn.

(** The warnings of the configuration validation, as recorded. *)
Definition validation_warnings (E : Env) (cfg : cserver.Config) : list Message :=
  (fun cerr => warning (cserver.cerr_String cerr)) <$> Validate E cfg "test".

(** The message of line 129. *)
Definition nope : Message := mkMessage SevError "nope, didn't work".

Definition error_messages (err : error) : list Message :=
  match err with Some e => [mkMessage SevError e] | None => [] end.

Definition exit_of (err : error) : Z := if err is Some _ then 1%Z else 0%Z.

Definition root_sk (ms : list Message) : string * option nat * list Message :=
  ("initialization", None, ms).
Definition check_sk (name : string) (ms : list Message)
  : string * option nat * list Message :=
  (name, Some 0, ms).

Definition disableClustering_of (cfg : cserver.Config) : bool :=
  match cserver.HAStorage cfg with
  | Some ha => cserver.DisableClustering ha
  | None => false
  end.

(** The state in which the checks start: a fresh store that holds the root
    span only. *)
Definition started (s : State) : State :=
  set_session [mkSpan 0 "initialization" None st_ok [] false] s.

(** The state with the skip names of the command replaced. *)
Definition with_skips (k : list string) (s : State) : State :=
  set_cmd (mkCommand (flagDebug (cmd s)) k (flagConfigs (cmd s)) (cleanupGuard (cmd s))) s.

(** A computation that does the same whatever the skip names are. *)
Definition skip_blind {A : Type} (m : M A) : Prop :=
  forall k s, m (with_skips k s) = (result (m s), with_skips k (final (m s)), trace (m s)).

(** ** Sample runs

    A configuration with one listener that serves TLS and one that has TLS
    disabled, environments in which everything succeeds, the storage backend
    cannot be built, or the second listener cannot be bound, and a command as
    the CLI builds it: one [-config] path, the given [-skip] names, a fresh
    cleanup guard. *)

Definition tls_stanza : cserver.ListenerConfig :=
  cserver.mkListenerConfig "tcp" "127.0.0.1:8200" false false.
Definition plain_stanza : cserver.ListenerConfig :=
  cserver.mkListenerConfig "tcp" "127.0.0.1:8201" true false.
Definition sample_config : cserver.Config :=
  cserver.mkConfig [tls_stanza; plain_stanza] None "file".

Definition sample_env (bind : nat -> error) (storage : error) : Env :=
  mkEnv (fun _ => inl sample_config)
        (fun _ _ => [cserver.mkConfigError "unknown key in stanza"])
        (fun i _ => bind i)
        (fun _ => None)
        (fun _ => None)
        (fun _ => storage)
        "Vault v1.8.0".

Definition healthy_env : Env := sample_env (fun _ => None) None.
Definition storage_down_env : Env :=
  sample_env (fun _ => None) (Some "storage backend is locked").
Definition second_bind_fails_env : Env :=
  sample_env (fun i => if decide (i = 1) then Some "address already in use" else None) None.

Definition sample_command (skips : list string) : OperatorDiagnoseCommand :=
  mkCommand false skips ["/etc/vault/config.hcl"] (sync.mkOnce false).
Definition sample_state (skips : list string) : State :=
  mkState (sample_command skips) None [].

(** ** The entry point [Run] and further observations *)

(** What parsing the command line leaves in the three flag fields. *)
Record ParsedFlags : Type := mkParsedFlags {
  parsedDebug : bool;
  parsedSkips : list string;
  parsedConfigs : list string
}.

(** The flag sets of [Flags] (lines 65-96) target [c.flagConfigs],
    [c.flagSkips] and [c.flagDebug]: parsing writes these three fields of the
    receiver and no other. *)
Definition set_flags (pf : ParsedFlags) (s : State) : State :=
  set_cmd (mkCommand (parsedDebug pf) (parsedSkips pf) (parsedConfigs pf)
                     (cleanupGuard (cmd s))) s.

Section Entry.

Variable E : Env.

(** [c.Flags().Parse(args)]: the flag-set parser (command/base_flags.go) is
    not among the sources at hand and is taken as a parameter: from the
    arguments and the receiver it gives the values the three flag fields
    hold afterwards and the error it returns. *)
Variable Parse : list string -> OperatorDiagnoseCommand -> ParsedFlags * error.

(** Lines 106-113. *)
Definition Run (args : list string) : M Z :=
  c ← gets cmd;
  let '(pf, err) := Parse args c in
  modify (set_flags pf);;
  if err is Some e then
    UI_Error e;;
    mret 1%Z
  else RunWithParsedFlags E.

End Entry.

(** The paths handed to the configuration loader and the stanzas handed to
    the TLS builder, in order. *)
Definition parse_calls (t : list Event) : list (list string) :=
  omap (fun e => match e with ParseConfigCall paths => Some paths | _ => None end) t.
Definition tls_calls (t : list Event) : list cserver.ListenerConfig :=
  omap (fun e => match e with TLSConfigCall lc => Some lc | _ => None end) t.

(** The state with the [-debug] and [-skip] values of the command replaced. *)
Definition with_flags (d : bool) (k : list string) (s : State) : State :=
  set_cmd (mkCommand d k (flagConfigs (cmd s)) (cleanupGuard (cmd s))) s.

(** A computation that does the same whatever [-debug] and [-skip] are. *)
Definition flags_blind {A : Type} (m : M A) : Prop :=
  forall d k s,
    m (with_flags d k s) = (result (m s), with_flags d k (final (m s)), trace (m s)).

(** Every configured listener binds, and every one that serves TLS gets its
    TLS configuration built. *)
Definition all_bind (E : Env) (cfg : cserver.Config) : Prop :=
  forall k lc, cserver.Listeners cfg !! k = Some lc -> NewListener E k lc = None.
Definition all_tls (E : Env) (lns : list listenerutil.Listener) : Prop :=
  forall ln, ln ∈ lns -> tls_enabled ln -> TLSConfig E (listenerutil.ln_Config ln) = None.

(** The environment with another validation of the configuration. *)
Definition with_Validate (V : cserver.Config -> string -> list cserver.ConfigError)
    (E : Env) : Env :=
  mkEnv (parseConfig E) V (NewListener E) (TLSConfig E) (ListenerChecks E)
        (setupStorage E) (FullVersionNumber E).

(** The listeners that go into the structural validation. *)
Definition sanitized (cfg : cserver.Config) : list listenerutil.Listener :=
  filter tls_enabled (bound 0 (cserver.Listeners cfg)).

(** Further sample data: an environment in which the TLS configuration of
    the first listener cannot be built, and two flag parsers that take every
    argument for a configuration path, unless one of them is [-bogus]; the
    second also sets [-debug] and [-skip listener]. *)
Definition tls_fails_env : Env :=
  mkEnv (fun _ => inl sample_config)
        (fun _ _ => [])
        (fun _ _ => None)
        (fun lc => if cserver.TLSDisable lc then None
                   else Some "open /etc/vault/tls.crt: no such file or directory")
        (fun _ => None)
        (fun _ => None)
        "Vault v1.8.0".

Definition sample_Parse (args : list string) (c : OperatorDiagnoseCommand)
  : ParsedFlags * error :=
  if decide ("-bogus" ∈ args)
  then (mkParsedFlags (flagDebug c) (flagSkips c) (flagConfigs c),
        Some "flag provided but not defined: -bogus")
  else (mkParsedFlags false [] args, None).

Definition sample_Parse' (args : list string) (c : OperatorDiagnoseCommand)
  : ParsedFlags * error :=
  if decide ("-bogus" ∈ args)
  then (mkParsedFlags true ["listener"] (flagConfigs c),
        Some "flag provided but not defined: -bogus")
  else (mkParsedFlags true ["listener"] args, None).

(** * Properties *)

(** ** The span store: what ending and marking spans preserves *)

Lemma skeleton_alter_status st i (l : list Span) :
  skeleton <$> alter (diagnose.with_status st) i l = skeleton <$> l.
Proof.
  rewrite (list_fmap_alter skeleton _ (fun k => k)).
  - by apply list_alter_id.
  - by apply Forall_forall.
Qed.

Lemma skeleton_alter_ended i (l : list Span) :
  skeleton <$> alter diagnose.with_ended i l = skeleton <$> l.
Proof.
  rewrite (list_fmap_alter skeleton _ (fun k => k)).
  - by apply list_alter_id.
  - by apply Forall_forall.
Qed.

Lemma skeleton_alter_message m i (l : list Span) :
  skeleton <$> alter (diagnose.add_message m) i l = alter (sk_add [m]) i (skeleton <$> l).
Proof. apply list_fmap_alter. by apply Forall_forall. Qed.

Lemma skeleton_recompute_up fuel : forall i (l : list Span),
  skeleton <$> diagnose.recompute_up fuel i l = skeleton <$> l.
Proof.
  induction fuel as [|fuel IH]; intros i l; simpl; [done|].
  destruct (l !! i) as [sp|]; [|done].
  destruct (parentId sp) as [p|].
  - by rewrite IH, skeleton_alter_status.
  - apply skeleton_alter_status.
Qed.

Lemma skeleton_end_span i (l : list Span) :
  skeleton <$> diagnose.end_span i l = skeleton <$> l.
Proof.
  unfold diagnose.end_span.
  by rewrite skeleton_recompute_up, skeleton_alter_ended.
Qed.

Lemma skeleton_close_open (l : list Span) :
  skeleton <$> diagnose.close_open l = skeleton <$> l.
Proof.
  unfold diagnose.close_open.
  induction (seq 0 (length l)) as [|i rest IH]; simpl; [done|].
  destruct (_ !! i) as [sp|]; [|done].
  destruct (ended sp); [done|].
  by rewrite skeleton_end_span.
Qed.


(** ** Running computations *)

Ltac proj := cbn [result final trace fst snd].

Lemma run_bind {A B : Type} (m : M A) (k : A -> M B) (s : State) :
  (m ≫= k) s =
  (result (k (result (m s)) (final (m s))),
   final (k (result (m s)) (final (m s))),
   trace (m s) ++ trace (k (result (m s)) (final (m s)))).
Proof.
  unfold mbind, M_bind, result, final, trace.
  destruct (m s) as [[a s1] t1]; simpl.
  by destruct (k a s1) as [[b s2] t2].
Qed.

Lemma run_eta {A : Type} (r : A * State * list Event) :
  r = (result r, final r, trace r).
Proof. by destruct r as [[a s] t]. Qed.

Lemma sk_add_nil k : sk_add [] k = k.
Proof. destruct k as [[n p] ms]. unfold sk_add; simpl. by rewrite app_nil_r. Qed.

Lemma sk_add_add a b k : sk_add b (sk_add a k) = sk_add (a ++ b) k.
Proof. unfold sk_add; simpl. by rewrite app_assoc. Qed.

Lemma alter_sk_add_nil i (l : list (string * option nat * list Message)) :
  alter (sk_add []) i l = l.
Proof. apply list_alter_id, sk_add_nil. Qed.

Lemma alter_sk_add_add a b i (l : list (string * option nat * list Message)) :
  alter (sk_add b) i (alter (sk_add a) i l) = alter (sk_add (a ++ b)) i l.
Proof.
  rewrite list_alter_alter_eq.
  apply list_alter_ext; [|done]. intros k _. apply sk_add_add.
Qed.

Lemma bind_gets {A B : Type} (f : State -> A) (k : A -> M B) s :
  (gets f ≫= k) s = k (f s) s.
Proof. unfold mbind, M_bind, gets. by destruct (k (f s) s) as [[b s2] t2]. Qed.

Lemma bind_modify {B : Type} (g : State -> State) (k : unit -> M B) s :
  (modify g ≫= k) s = k tt (g s).
Proof. unfold mbind, M_bind, modify. by destruct (k tt (g s)) as [[b s2] t2]. Qed.

Lemma bind_ret {A B : Type} (a : A) (k : A -> M B) s :
  (mret a ≫= k) s = k a s.
Proof. unfold mbind, M_bind, mret, M_ret. by destruct (k a s) as [[b s2] t2]. Qed.

Lemma run_ret {A : Type} (a : A) (s : State) : (mret a : M A) s = (a, s, []).
Proof. reflexivity. Qed.

Lemma bind_emit {B : Type} (e : Event) (k : unit -> M B) s :
  (emit e ≫= k) s = (result (k tt s), final (k tt s), e :: trace (k tt s)).
Proof. unfold mbind, M_bind, emit. by destruct (k tt s) as [[b s2] t2]. Qed.

Lemma forM_Warn_run {A : Type} (f : A -> string) (i : nat) (xs : list A) : forall s,
  let r := forM_ xs (fun x => diagnose.Warn (Some i) (f x)) s in
  trace r = [] /\ cmd (final r) = cmd s /\ config (final r) = config s /\
  skeleton <$> session (final r) =
    alter (sk_add ((fun x => warning (f x)) <$> xs)) i (skeleton <$> session s).
Proof.
  induction xs as [|x xs IH]; intros s; cbn [forM_ fmap list_fmap].
  - by rewrite alter_sk_add_nil.
  - cbv zeta. rewrite run_bind. proj.
    set (s1 := final (diagnose.Warn (Some i) (f x) s)).
    destruct (IH s1) as (Ht & Hc & Hg & Hs).
    rewrite Ht, Hc, Hg, Hs. subst s1. 
    change (final (diagnose.Warn (Some i) (f x) s)) with (set_session (alter (diagnose.add_message (warning (f x))) i (session s)) s).
    cbn [set_session cmd config session trace].
    rewrite skeleton_alter_message.
    by rewrite alter_sk_add_add.
Qed.

Lemma Test_run ctx name (checkFn : diagnose.Context -> M error) s :
  let n := length (session s) in
  let r := checkFn (Some n)
             (set_session (session s ++ [mkSpan n name ctx st_ok [] false]) s) in
  diagnose.Test ctx name checkFn s =
  (result r,
   set_session (finish_span n (result r) (session (final r))) (final r),
   CheckInvoked name :: trace r ++ [CheckReturned name (result r)]).
Proof.
  unfold diagnose.Test, diagnose.TestSkipping.
  destruct (decide (name ∈ [])) as [Hin|_]; [by apply elem_of_nil in Hin|].
  unfold mbind, M_bind, diagnose.StartSpan, gets, modify, emit; simpl.
  destruct (checkFn _ _) as [[err s1] t1]; simpl.
  unfold result, final, trace; simpl.
  destruct err as [e|]; simpl; by rewrite ?app_nil_r.
Qed.

Lemma skeleton_finish_span n err (spans : list Span) :
  skeleton <$> finish_span n err spans =
  alter (sk_add (match err with
                 | Some e => [mkMessage SevError e]
                 | None => []
                 end)) n (skeleton <$> spans).
Proof.
  destruct err as [e|]; simpl.
  - by rewrite skeleton_end_span, skeleton_alter_message, skeleton_alter_status.
  - by rewrite skeleton_end_span, alter_sk_add_nil.
Qed.

Section Runs.
Variable E : Env.

Lemma listenerCloseFunc_run (lns : list listenerutil.Listener) : forall s,
  listenerCloseFunc lns s =
  (tt, s, ListenerClose <$> (listenerutil.ln_Listener <$> lns)).
Proof.
  unfold listenerCloseFunc.
  induction lns as [|ln lns IH]; intros s; cbn [forM_ fmap list_fmap]; [done|].
  by rewrite run_bind, IH.
Qed.

Lemma bindListeners_run (stanzas : list cserver.ListenerConfig) : forall i lns s,
  let r := bindListeners E i stanzas lns s in
  final r = s /\
  ((result r = (lns ++ bound i stanzas, None) /\
    trace r = ListenerOpen <$> seq i (length stanzas) /\
    forall k lc, stanzas !! k = Some lc -> NewListener E (i + k) lc = None)
   \/
   (exists k lc e,
      stanzas !! k = Some lc /\ NewListener E (i + k) lc = Some e /\
      result r = ([], Some e) /\
      trace r = ListenerOpen <$> seq i k)).
Proof.
  induction stanzas as [|lc rest IH]; intros i lns s; cbn [bindListeners].
  - split; [done|]. left. unfold bound; simpl. rewrite app_nil_r.
    repeat split; try done.
  - cbv zeta. destruct (NewListener E i lc) as [e|] eqn:Hnew.
    + split; [done|]. right. exists 0, lc, e.
      rewrite Nat.add_0_r. by repeat split.
    + rewrite run_bind. change (final (emit (ListenerOpen i) s)) with s.
      change (trace (emit (ListenerOpen i) s)) with [ListenerOpen i]. proj.
      destruct (IH (S i) (lns ++ [listenerutil.mkListener i lc]) s)
        as (Hf & [(Hr & Ht & Hall) | (k & lc' & e & Hk & Hfail & Hr & Ht)]).
      * split; [done|]. left. rewrite Hr, Ht. repeat split.
        -- unfold bound. simpl. by rewrite <- app_assoc.
        -- intros [|k] lc' Hk; simpl in Hk.
           ++ rewrite Nat.add_0_r. congruence.
           ++ rewrite <- Nat.add_succ_comm. by apply Hall.
      * split; [done|]. right. exists (S k), lc', e.
        rewrite <- Nat.add_succ_comm. rewrite Hr, Ht. by repeat split.
Qed.

Lemma cleanupGuard_Do_released (f : M unit) s :
  sync.done (cleanupGuard (cmd s)) = true -> cleanupGuard_Do f s = (tt, s, []).
Proof.
  intros Hd. unfold cleanupGuard_Do. by rewrite bind_gets, Hd.
Qed.

Lemma cleanupGuard_Do_first (f : M unit) s :
  sync.done (cleanupGuard (cmd s)) = false ->
  cleanupGuard_Do f s = (tt, release (final (f s)), trace (f s)).
Proof.
  intros Hd. unfold cleanupGuard_Do. rewrite bind_gets, Hd.
  rewrite run_bind. unfold modify. proj. by rewrite app_nil_r.
Qed.

Lemma Warn_eq i txt :
  diagnose.Warn (Some i) txt =
  modify (fun s => set_session (alter (diagnose.add_message (warning txt)) i (session s)) s).
Proof. reflexivity. Qed.

Lemma listenerStep_run i ln san s :
  let r := listenerStep E (Some i) ln san s in
  cmd (final r) = cmd s /\ config (final r) = config s /\
  skeleton <$> session (final r) = alter (sk_add (step_warnings ln)) i (skeleton <$> session s) /\
  trace r = (if cserver.TLSDisable (listenerutil.ln_Config ln) then []
             else [TLSConfigCall (listenerutil.ln_Config ln)]) /\
  result r =
    (if cserver.TLSDisable (listenerutil.ln_Config ln) then Continue san
     else match TLSConfig E (listenerutil.ln_Config ln) with
          | Some e => Return ("error creating TLS Configuration out of config file: " +:+ e)
          | None => Continue (san ++ [ln])
          end).
Proof.
  unfold listenerStep, step_warnings.
  destruct ln as [h lc]; cbn [listenerutil.ln_Config listenerutil.ln_Listener].
  destruct (cserver.TLSDisable lc).
  - rewrite Warn_eq, bind_modify. unfold mret, M_ret. proj.
    cbn [set_session cmd config session]. by rewrite skeleton_alter_message.
  - unfold listenerutil_TLSConfig.
    destruct (cserver.TLSDisableClientCerts lc).
    + rewrite Warn_eq, bind_modify, run_bind, bind_emit.
      destruct (TLSConfig E lc); unfold mret, M_ret; proj;
        cbn [set_session cmd config session];
        by rewrite skeleton_alter_message.
    + rewrite bind_ret, run_bind, bind_emit.
      destruct (TLSConfig E lc); unfold mret, M_ret; proj;
        by rewrite alter_sk_add_nil.
Qed.

Lemma step_warnings_are_warnings ln : Forall is_warning (step_warnings ln).
Proof.
  unfold step_warnings.
  destruct (cserver.TLSDisable _); [by repeat constructor|].
  destruct (cserver.TLSDisableClientCerts _); by repeat constructor.
Qed.

Lemma forListeners_run i (lns : list listenerutil.Listener) : forall san s,
  let r := forListeners E (Some i) lns san s in
  cmd (final r) = cmd s /\ config (final r) = config s /\
  (exists ws, Forall is_warning ws /\
     skeleton <$> session (final r) = alter (sk_add ws) i (skeleton <$> session s)) /\
  (exists lcs, trace r = TLSConfigCall <$> lcs) /\
  match result r with
  | inr san' =>
      san' = san ++ filter tls_enabled lns /\
      forall ln, ln ∈ lns -> tls_enabled ln ->
                 TLSConfig E (listenerutil.ln_Config ln) = None
  | inl e =>
      exists ln e0, ln ∈ lns /\ tls_enabled ln /\
        TLSConfig E (listenerutil.ln_Config ln) = Some e0 /\
        e = "error creating TLS Configuration out of config file: " +:+ e0
  end.
Proof.
  induction lns as [|ln lns IH]; intros san s; cbn [forListeners]; cbv zeta.
  - unfold mret, M_ret; proj. repeat split; try done.
    + exists []. split; [constructor|]. by rewrite alter_sk_add_nil.
    + by exists [].
    + by rewrite app_nil_r.
    + intros ln Hin. by apply elem_of_nil in Hin.
  - rewrite run_bind.
    destruct (listenerStep_run i ln san s) as (Hc & Hg & Hs & Ht & Hr).
    rewrite Hr, Ht. clear Hr Ht.
    set (s1 := final (listenerStep E (Some i) ln san s)) in *.
    destruct (cserver.TLSDisable (listenerutil.ln_Config ln)) eqn:Hdis.
    + destruct (IH san s1) as (Hc' & Hg' & (ws & Hws & Hs') & (lcs & Ht') & Hr').
      proj. rewrite Hc', Hg', Hs', Hs, Ht', alter_sk_add_add.
      repeat split; try done.
      * exists (step_warnings ln ++ ws). split; [|done].
        apply Forall_app. split; [apply step_warnings_are_warnings|done].
      * by exists lcs.
      * destruct (result (forListeners E (Some i) lns san s1)) as [e|san'].
        -- destruct Hr' as (ln' & e0 & Hin & Hen & Hfail & He).
           exists ln', e0. repeat split; try done. by apply elem_of_cons; right.
        -- destruct Hr' as [Hsan Hall]. split.
           ++ rewrite filter_cons_False; [done|].
              unfold tls_enabled. by rewrite Hdis.
           ++ intros ln' [->|Hin]%elem_of_cons Hen; [|by apply Hall].
              unfold tls_enabled in Hen. congruence.
    + destruct (TLSConfig E (listenerutil.ln_Config ln)) as [e0|] eqn:Htls.
      * unfold mret, M_ret; proj. rewrite app_nil_r. repeat split; try done.
        -- exists (step_warnings ln). split; [apply step_warnings_are_warnings|done].
        -- by exists [listenerutil.ln_Config ln].
        -- exists ln, e0. repeat split; try done. by apply elem_of_cons; left.
      * destruct (IH (san ++ [ln]) s1) as (Hc' & Hg' & (ws & Hws & Hs') & (lcs & Ht') & Hr').
        proj. rewrite Hc', Hg', Hs', Hs, Ht', alter_sk_add_add.
        repeat split; try done.
        -- exists (step_warnings ln ++ ws). split; [|done].
           apply Forall_app. split; [apply step_warnings_are_warnings|done].
        -- by exists (listenerutil.ln_Config ln :: lcs).
        -- destruct (result (forListeners E (Some i) lns (san ++ [ln]) s1)) as [e|san'].
           ++ destruct Hr' as (ln' & e0 & Hin & Hen & Hfail & He).
              exists ln', e0. repeat split; try done. by apply elem_of_cons; right.
           ++ destruct Hr' as [Hsan Hall]. split.
              ** rewrite filter_cons_True; [|done]. by rewrite Hsan, <- app_assoc.
              ** intros ln' [->|Hin]%elem_of_cons Hen; [done|by apply Hall].
Qed.

Lemma bound_handles (stanzas : list cserver.ListenerConfig) : forall i,
  listenerutil.ln_Listener <$> bound i stanzas = seq i (length stanzas).
Proof.
  unfold bound. induction stanzas as [|lc rest IH]; intros i; simpl; [done|].
  by rewrite IH.
Qed.

Lemma bound_elem (stanzas : list cserver.ListenerConfig) lc : forall i,
  lc ∈ stanzas -> exists k, listenerutil.mkListener k lc ∈ bound i stanzas.
Proof.
  unfold bound. induction stanzas as [|lc' rest IH]; intros i Hin.
  - by apply elem_of_nil in Hin.
  - apply elem_of_cons in Hin as [->|Hin]; simpl.
    + exists i. by apply elem_of_cons; left.
    + destruct (IH (S i) Hin) as [k Hk]. exists k. by apply elem_of_cons; right.
Qed.

Lemma initListenersCheck_run cfg dc i s :
  let r := initListenersCheck E cfg dc (Some i) s in
  let stanzas := cserver.Listeners cfg in
  let n := length stanzas in
  config (final r) = config s /\
  (exists ws, Forall is_warning ws /\
     skeleton <$> session (final r) = alter (sk_add ws) i (skeleton <$> session s)) /\
  ((exists k lc e,
      stanzas !! k = Some lc /\ NewListener E k lc = Some e /\
      result r = Some e /\ trace r = ListenerOpen <$> seq 0 k /\ final r = s)
   \/
   ((forall k lc, stanzas !! k = Some lc -> NewListener E k lc = None) /\
    (forall lc e0, lc ∈ stanzas -> cserver.TLSDisable lc = false ->
                   TLSConfig E lc = Some e0 -> result r <> None) /\
    sync.done (cleanupGuard (cmd (final r))) = true /\
    exists lcs vs,
      (vs = [] \/ vs = [filter tls_enabled (bound 0 stanzas)]) /\
      trace r =
        (ListenerOpen <$> seq 0 n) ++ (TLSConfigCall <$> lcs) ++
        (ListenerChecksCall <$> vs) ++
        (if sync.done (cleanupGuard (cmd s)) then [] else ListenerClose <$> seq 0 n))).
Proof.
  cbv zeta. unfold initListenersCheck, InitListeners. rewrite run_bind.
  destruct (bindListeners_run (cserver.Listeners cfg) 0 [] s)
    as (Hf & [(Hr & Ht & Hall) | (k & lc & e & Hk & Hfail & Hr & Ht)]);
    unfold error in *; rewrite Hr, Ht, Hf; clear Hr Ht Hf; cbn beta iota.
  2:{ unfold mret, M_ret; proj. rewrite app_nil_r. repeat split; try done.
      - exists []. split; [constructor|]. by rewrite alter_sk_add_nil.
      - left. by exists k, lc, e. }
  rewrite app_nil_l. set (lns := bound 0 (cserver.Listeners cfg)).
  unfold defer. rewrite !run_bind.
  destruct (forListeners_run i lns [] s) as (Hc & Hg & (ws & Hws & Hs) & (lcs & Ht) & Hres).
  set (r1 := forListeners E (Some i) lns [] s) in *.
  assert (exists err vs,
    let r2 := match result r1 with
              | inl e => mret (Some e)
              | inr sanitizedListeners => diagnose_ListenerChecks E sanitizedListeners
              end (final r1) in
    result r2 = err /\ final r2 = final r1 /\ trace r2 = ListenerChecksCall <$> vs /\
    (vs = [] \/ vs = [filter tls_enabled lns]) /\
    (forall ln e0, ln ∈ lns -> tls_enabled ln ->
        TLSConfig E (listenerutil.ln_Config ln) = Some e0 -> err <> None))
    as (err & vs & Hr2 & Hf2 & Ht2 & Hvs & Herr).
  { destruct (result r1) as [e|san].
    - exists (Some e), []. unfold mret, M_ret; proj. repeat split; try done. by left.
    - destruct Hres as [-> Hall']. exists (ListenerChecks E (filter tls_enabled lns)), [filter tls_enabled lns].
      unfold diagnose_ListenerChecks. rewrite bind_emit. unfold mret, M_ret; proj.
      rewrite app_nil_l. repeat split; try done; [by right|].
      intros ln e0 Hin Hen Hfail. rewrite (Hall' ln Hin Hen) in Hfail. done. }
  cbv zeta in Hr2, Hf2, Ht2. rewrite Hr2, Hf2, Ht2, Ht. clear Hr2 Hf2 Ht2.
  assert (Hclose : forall s', listenerCloseFunc lns s' =
                     (tt, s', ListenerClose <$> seq 0 (length (cserver.Listeners cfg)))).
  { intros s'. rewrite listenerCloseFunc_run. unfold lns. by rewrite bound_handles. }
  proj.
  destruct (sync.done (cleanupGuard (cmd s))) eqn:Hd.
  - rewrite cleanupGuard_Do_released by (by rewrite Hc).
    unfold mret, M_ret; proj. rewrite !app_nil_r. rewrite Hg.
    repeat split; try done.
    + by exists ws.
    + right. repeat split; try done.
      * intros lc e0 Hin Hdis Hfail. destruct (bound_elem _ lc 0 Hin) as [k Hk].
        by apply (Herr _ e0 Hk).
      * by rewrite Hc.
      * exists lcs, vs. by rewrite !app_nil_r.
  - rewrite cleanupGuard_Do_first by (by rewrite Hc).
    rewrite Hclose.
    unfold mret, M_ret; proj. rewrite !app_nil_r.
    unfold release; cbn [set_cmd cmd config session cleanupGuard sync.done]. rewrite Hg.
    repeat split; try done.
    + by exists ws.
    + right. repeat split; try done.
      * intros lc e0 Hin Hdis Hfail. destruct (bound_elem _ lc 0 Hin) as [k Hk].
        by apply (Herr _ e0 Hk).
      * exists lcs, vs. by rewrite <- !app_assoc.
Qed.

Lemma parseConfigurationCheck_run i s :
  let r := parseConfigurationCheck E (Some i) s in
  let paths := flagConfigs (cmd s) in
  cmd (final r) = cmd s /\ trace r = [ParseConfigCall paths] /\
  match parseConfig E paths with
  | inr e =>
      result r = Some e /\ session (final r) = session s
  | inl cfg =>
      result r = None /\ config (final r) = Some cfg /\
      skeleton <$> session (final r) =
        alter (sk_add (validation_warnings E cfg)) i (skeleton <$> session s)
  end.
Proof.
  cbv zeta. unfold parseConfigurationCheck, server_parseConfig.
  rewrite bind_gets, run_bind, bind_emit, run_ret. proj.
  destruct (parseConfig E (flagConfigs (cmd s))) as [cfg|e].
  - rewrite bind_modify, run_bind.
    destruct (forM_Warn_run cserver.cerr_String i (Validate E cfg "test") (set_config (Some cfg) s))
      as (Ht & Hc & Hg & Hs).
    cbv zeta in Ht, Hc, Hg, Hs. rewrite run_ret. proj.
    rewrite Ht, Hc, Hg, Hs. done.
  - rewrite bind_modify, run_ret. proj. done.
Qed.

Lemma finalize_run {A : Type} (body : M A) span s :
  let r := defer (diagnose.End span;;
                  r ← diagnose.Shutdown;
                  diagnose.Report_Write r os_Stdout) body s in
  result r = result (body s) /\
  cmd (final r) = cmd (final (body s)) /\
  exists rep,
    trace r = trace (body s) ++ [DiagShutdown; ReportWrite os_Stdout rep] /\
    tree rep = session (final r) /\
    skeleton <$> tree rep = skeleton <$> session (final (body s)).
Proof.
  cbv zeta. unfold defer, diagnose.End, diagnose.Shutdown, diagnose.Report_Write, modify_session.
  rewrite run_bind.
  set (s1 := final (body s)).
  rewrite run_bind, bind_modify, run_bind, bind_gets, bind_modify, bind_emit, !run_ret.
  unfold emit. proj. cbn [set_session cmd config session].
  repeat split.
  eexists. split; [by rewrite app_nil_r|]. cbn [tree]. split; [done|].
  by rewrite skeleton_close_open, skeleton_end_span.
Qed.

Lemma session_length (l : list Span) (sk : list (string * option nat * list Message)) :
  skeleton <$> l = sk -> length l = length sk.
Proof. intros <-. by rewrite length_fmap. Qed.

Lemma storageCheck_run cfg ctx s :
  storageCheck E cfg ctx s = (setupStorage E cfg, s, [SetupStorageCall cfg]).
Proof. unfold storageCheck, server_setupStorage. by rewrite bind_emit, run_ret. Qed.

Lemma runChecks_run s ms :
  skeleton <$> session s = [root_sk ms] ->
  let r := runChecks E (Some 0) s in
  let paths := flagConfigs (cmd s) in
  exists body sk,
    trace r = UIOutput (FullVersionNumber E) :: body /\
    skeleton <$> session (final r) = sk /\
    ((exists e,
        parseConfig E paths = inr e /\ result r = 1%Z /\ cmd (final r) = cmd s /\
        body = [CheckInvoked "Parse configuration"; ParseConfigCall paths;
                CheckReturned "Parse configuration" (Some e)] /\
        sk = [root_sk (ms ++ [nope]);
              check_sk "Parse configuration" [mkMessage SevError e]])
     \/
     (exists cfg s2 lw,
        parseConfig E paths = inl cfg /\ cmd s2 = cmd s /\ Forall is_warning lw /\
        let r2 := initListenersCheck E cfg (disableClustering_of cfg) (Some 2) s2 in
        cmd (final r) = cmd (final r2) /\
        ((exists e,
            result r2 = Some e /\ result r = 1%Z /\
            body = [CheckInvoked "Parse configuration"; ParseConfigCall paths;
                    CheckReturned "Parse configuration" None;
                    CheckInvoked "init-listeners"] ++ trace r2 ++
                   [CheckReturned "init-listeners" (Some e)] /\
            sk = [root_sk (ms ++ [nope]);
                  check_sk "Parse configuration" (validation_warnings E cfg);
                  check_sk "init-listeners" (lw ++ [mkMessage SevError e])])
         \/
         (result r2 = None /\
          result r = exit_of (setupStorage E cfg) /\
          body = [CheckInvoked "Parse configuration"; ParseConfigCall paths;
                  CheckReturned "Parse configuration" None;
                  CheckInvoked "init-listeners"] ++ trace r2 ++
                 [CheckReturned "init-listeners" None;
                  CheckInvoked "storage"; SetupStorageCall cfg;
                  CheckReturned "storage" (setupStorage E cfg)] /\
          sk = [root_sk (ms ++ [nope]);
                check_sk "Parse configuration" (validation_warnings E cfg);
                check_sk "init-listeners" lw;
                check_sk "storage" (error_messages (setupStorage E cfg))])))).
Proof.
  intros Hsk0. cbv zeta. unfold runChecks, UI_Output, diagnose.Error, diagnose.record, modify_session.
  rewrite bind_modify, bind_emit, bind_modify. proj.
  set (s0 := set_config None _).
  assert (Hsk1 : skeleton <$> session s0 = [root_sk (ms ++ [nope])]).
  { subst s0. cbn [set_config set_session session]. by rewrite skeleton_alter_message, Hsk0. }
  assert (Hcmd0 : cmd s0 = cmd s) by done.
  clearbody s0. clear Hsk0.
  rewrite run_bind, Test_run. cbv zeta. proj.
  rewrite (session_length _ _ Hsk1). cbn [length].
  set (s1 := set_session (session s0 ++ _) s0).
  assert (Hsk1' : skeleton <$> session s1 =
                  [root_sk (ms ++ [nope]); check_sk "Parse configuration" []]).
  { subst s1. cbn [set_session session]. by rewrite fmap_app, Hsk1. }
  destruct (parseConfigurationCheck_run 1 s1) as (Hc1 & Ht1 & Hparse).
  cbv zeta in Hc1, Ht1, Hparse. change (cmd s1) with (cmd s0) in *. rewrite Hcmd0 in *.
  rewrite Ht1. clear Ht1.
  set (r1 := parseConfigurationCheck E (Some 1) s1) in *.
  destruct (parseConfig E (flagConfigs (cmd s))) as [cfg|e].
  - destruct Hparse as (Hr1 & Hg1 & Hs1). rewrite Hr1. cbn match.
    rewrite bind_gets. cbn [set_session cmd config session]. rewrite Hg1.
    rewrite run_bind, Test_run. cbv zeta. proj.
    set (s2' := set_session (finish_span 1 None (session (final r1))) (final r1)).
    assert (Hsk2' : skeleton <$> session s2' =
                    [root_sk (ms ++ [nope]);
                     check_sk "Parse configuration" (validation_warnings E cfg)]).
    { subst s2'. cbn [set_session session].
      by rewrite skeleton_finish_span, alter_sk_add_nil, Hs1, Hsk1'. }
    rewrite (session_length _ _ Hsk2'). cbn [length].
    set (s2 := set_session (session s2' ++ _) s2').
    assert (Hsk2 : skeleton <$> session s2 =
                   [root_sk (ms ++ [nope]);
                    check_sk "Parse configuration" (validation_warnings E cfg);
                    check_sk "init-listeners" []]).
    { subst s2. cbn [set_session session]. by rewrite fmap_app, Hsk2'. }
    assert (Hcmd2 : cmd s2 = cmd s) by (by rewrite <- Hc1).
    clearbody s2.
    destruct (initListenersCheck_run cfg (disableClustering_of cfg) 2 s2)
      as (_ & (lw & Hlw & Hs3) & _).
    cbv zeta in Hs3. rewrite Hsk2 in Hs3. cbn in Hs3.
    change (match cserver.HAStorage cfg with
            | Some ha => cserver.DisableClustering ha
            | None => false
            end) with (disableClustering_of cfg).
    set (r2 := initListenersCheck E cfg (disableClustering_of cfg) (Some 2) s2) in *.
    do 2 eexists. split; [reflexivity|]. split; [reflexivity|].
    right. exists cfg, s2, lw. split; [done|]. split; [done|]. split; [done|].
    fold r2. destruct (result r2) as [e|] eqn:Hr2.
    + cbn match. rewrite run_ret. proj. cbn [set_session cmd config session].
      split; [done|]. left. exists e. split; [done|]. split; [done|].
      split; [by rewrite app_nil_r|].
      by rewrite skeleton_finish_span, Hs3.
    + cbn match. rewrite run_bind, Test_run. cbv zeta. proj.
      rewrite storageCheck_run. proj.
      cbn [set_session cmd config session].
      assert (Hlen : length (finish_span 2 None (session (final r2))) = 3).
      { rewrite <- (length_fmap skeleton), skeleton_finish_span, alter_sk_add_nil, Hs3.
        done. }
      rewrite Hlen.
      split; [by destruct (setupStorage E cfg); rewrite run_ret|].
      right. split; [done|].
      split; [by destruct (setupStorage E cfg); rewrite run_ret|].
      split.
      * destruct (setupStorage E cfg); rewrite run_ret; proj;
          rewrite app_nil_r; cbn [app]; by rewrite <- ?app_assoc.
      * destruct (setupStorage E cfg); rewrite run_ret; proj;
          cbn [set_session cmd config session];
          rewrite skeleton_finish_span, fmap_app, skeleton_finish_span,
            alter_sk_add_nil, Hs3; cbn; unfold sk_add, check_sk; cbn; by rewrite ?app_nil_r.
  - destruct Hparse as [Hr1 Hs1]. rewrite Hr1. cbn match. rewrite run_ret. proj.
    cbn [set_session cmd config session]. rewrite Hc1, app_nil_r.
    do 2 eexists. split; [reflexivity|]. split; [reflexivity|].
    left. exists e. repeat split; try done.
    rewrite skeleton_finish_span, Hs1, Hsk1'. done.
Qed.

Lemma RunWithParsedFlags_noconfig s :
  flagConfigs (cmd s) = [] ->
  RunWithParsedFlags E s =
  (1%Z, s, [UIError "Must specify a configuration file using -config."]).
Proof.
  intros Hnil. unfold RunWithParsedFlags, UI_Error. rewrite bind_gets, Hnil.
  cbn [length]. destruct (decide (0 = 0)) as [_|Hne]; [|done].
  by rewrite bind_emit, run_ret.
Qed.

Lemma RunWithParsedFlags_unfold s :
  flagConfigs (cmd s) <> [] ->
  RunWithParsedFlags E s =
  defer (diagnose.End 0;;
         r ← diagnose.Shutdown;
         diagnose.Report_Write r os_Stdout)
    (runChecks E (Some 0)) (started s).
Proof.
  intros Hne. unfold RunWithParsedFlags. rewrite bind_gets.
  destruct (decide (length (flagConfigs (cmd s)) = 0)) as [Hlen|_].
  { by destruct (flagConfigs (cmd s)). }
  unfold diagnose.Init, modify_session. rewrite bind_modify.
  unfold diagnose.StartSpan at 1.
  rewrite run_bind, bind_gets, bind_modify, run_ret. proj.
  cbn [set_session cmd config session length app].
  change (set_session _ (set_session [] s)) with (started s).
  symmetry. apply run_eta.
Qed.
End Runs.

(** ** The [-skip] names are not read *)

Lemma blind_ret {A : Type} (a : A) : skip_blind (mret a : M A).
Proof. by intros k s. Qed.

Lemma blind_emit e : skip_blind (emit e).
Proof. by intros k s. Qed.

Lemma blind_bind {A B : Type} (m : M A) (f : A -> M B) :
  skip_blind m -> (forall a, skip_blind (f a)) -> skip_blind (m ≫= f).
Proof.
  intros Hm Hf k s. rewrite !run_bind, Hm. proj. by rewrite Hf.
Qed.

Lemma blind_modify (g : State -> State) :
  (forall k s, g (with_skips k s) = with_skips k (g s)) -> skip_blind (modify g).
Proof. intros Hg k s. unfold modify. by rewrite Hg. Qed.

Lemma blind_gets {A : Type} (f : State -> A) :
  (forall k s, f (with_skips k s) = f s) -> skip_blind (gets f).
Proof. intros Hf k s. unfold gets. by rewrite Hf. Qed.

(** Reading the receiver is harmless when the rest looks at its other
    fields only. *)
Lemma blind_gets_cmd {B : Type} (f : OperatorDiagnoseCommand -> M B) :
  (forall c, skip_blind (f c)) ->
  (forall k c, f (mkCommand (flagDebug c) k (flagConfigs c) (cleanupGuard c)) = f c) ->
  skip_blind (gets cmd ≫= f).
Proof.
  intros Hb Hf k s. rewrite !bind_gets. cbn [with_skips set_cmd cmd].
  rewrite Hf. apply Hb.
Qed.

Lemma blind_forM_ {A : Type} (xs : list A) (f : A -> M unit) :
  (forall x, skip_blind (f x)) -> skip_blind (forM_ xs f).
Proof.
  intros Hf. induction xs as [|x xs IH]; cbn [forM_]; [apply blind_ret|].
  apply blind_bind; [apply Hf|done].
Qed.

Lemma blind_modify_session g : skip_blind (modify_session g).
Proof. by apply blind_modify. Qed.

Lemma blind_record sev ctx text : skip_blind (diagnose.record sev ctx text).
Proof. destruct ctx; [apply blind_modify_session|apply blind_ret]. Qed.

Lemma blind_StartSpan ctx name : skip_blind (diagnose.StartSpan ctx name).
Proof.
  apply blind_bind; [by apply blind_gets|]. intros spans.
  apply blind_bind; [by apply blind_modify|]. intros _. apply blind_ret.
Qed.

Lemma blind_TestSkipping skipSet ctx name checkFn :
  (forall c, skip_blind (checkFn c)) -> skip_blind (diagnose.TestSkipping skipSet ctx name checkFn).
Proof.
  intros Hfn. unfold diagnose.TestSkipping. destruct (decide (name ∈ skipSet)).
  - apply blind_bind; [apply blind_StartSpan|]. intros [ctx' span].
    repeat (apply blind_bind; [apply blind_modify_session|]; intros _). apply blind_ret.
  - apply blind_bind; [apply blind_StartSpan|]. intros [ctx' span].
    apply blind_bind; [apply blind_emit|]. intros _.
    apply blind_bind; [apply Hfn|]. intros err.
    apply blind_bind; [apply blind_emit|]. intros _.
    destruct err as [e|].
    + apply blind_bind; [apply blind_modify_session|]. intros _.
      apply blind_bind; [apply blind_record|]. intros _.
      apply blind_bind; [apply blind_modify_session|]. intros _. apply blind_ret.
    + apply blind_bind; [apply blind_modify_session|]. intros _. apply blind_ret.
Qed.

Section Blind.
Variable E : Env.

Lemma blind_parseConfigurationCheck ctx : skip_blind (parseConfigurationCheck E ctx).
Proof.
  unfold parseConfigurationCheck. apply blind_gets_cmd; [|done]. intros c.
  apply blind_bind.
  { apply blind_bind; [apply blind_emit|]. intros _. apply blind_ret. }
  intros [cfg|e].
  - apply blind_bind; [by apply blind_modify|]. intros _.
    apply blind_bind; [|intros _; apply blind_ret].
    apply blind_forM_. intros x. apply blind_record.
  - apply blind_bind; [by apply blind_modify|]. intros _. apply blind_ret.
Qed.

Lemma blind_bindListeners stanzas : forall i lns, skip_blind (bindListeners E i stanzas lns).
Proof.
  induction stanzas as [|lc rest IH]; intros i lns; cbn [bindListeners]; [apply blind_ret|].
  destruct (NewListener E i lc); [apply blind_ret|].
  apply blind_bind; [apply blind_emit|]. intros _. apply IH.
Qed.

Lemma blind_listenerStep ctx ln san : skip_blind (listenerStep E ctx ln san).
Proof.
  unfold listenerStep. destruct (cserver.TLSDisable _).
  - apply blind_bind; [apply blind_record|]. intros _. apply blind_ret.
  - apply blind_bind.
    { destruct (cserver.TLSDisableClientCerts _); [apply blind_record|apply blind_ret]. }
    intros _. apply blind_bind.
    { apply blind_bind; [apply blind_emit|]. intros _. apply blind_ret. }
    intros [e|]; apply blind_ret.
Qed.

Lemma blind_forListeners ctx lns : forall san, skip_blind (forListeners E ctx lns san).
Proof.
  induction lns as [|ln lns IH]; intros san; cbn [forListeners]; [apply blind_ret|].
  apply blind_bind; [apply blind_listenerStep|].
  intros [san'|e]; [apply IH|apply blind_ret].
Qed.

Lemma blind_cleanupGuard_Do f : skip_blind f -> skip_blind (cleanupGuard_Do f).
Proof.
  intros Hf. unfold cleanupGuard_Do. apply blind_gets_cmd; [|done]. intros c.
  destruct (sync.done (cleanupGuard c)); [apply blind_ret|].
  apply blind_bind; [done|]. intros _. by apply blind_modify.
Qed.

Lemma blind_initListenersCheck cfg dc ctx : skip_blind (initListenersCheck E cfg dc ctx).
Proof.
  unfold initListenersCheck, InitListeners.
  apply blind_bind; [apply blind_bindListeners|]. intros [lns [e|]]; [apply blind_ret|].
  unfold defer. apply blind_bind.
  { apply blind_bind; [apply blind_forListeners|].
    intros [e|san]; [apply blind_ret|].
    apply blind_bind; [apply blind_emit|]. intros _. apply blind_ret. }
  intros r. apply blind_bind; [|intros _; apply blind_ret].
  apply blind_cleanupGuard_Do. apply blind_forM_. intros ln. apply blind_emit.
Qed.

Lemma blind_runChecks ctx : skip_blind (runChecks E ctx).
Proof.
  unfold runChecks.
  apply blind_bind; [apply blind_record|]. intros _.
  apply blind_bind; [apply blind_emit|]. intros _.
  apply blind_bind; [by apply blind_modify|]. intros _.
  apply blind_bind.
  { apply blind_TestSkipping. apply blind_parseConfigurationCheck. }
  intros [e|]; [apply blind_ret|].
  apply blind_bind; [by apply blind_gets|]. intros [cfg|]; [|apply blind_ret].
  apply blind_bind.
  { apply blind_TestSkipping. apply blind_initListenersCheck. }
  intros [e|]; [apply blind_ret|].
  apply blind_bind.
  { apply blind_TestSkipping. intros c.
    apply blind_bind; [apply blind_emit|]. intros _. apply blind_ret. }
  intros [e|]; apply blind_ret.
Qed.

(** The run does not depend on the skip names: replacing them changes
    neither the exit code nor the trace, and the final state only in the
    skip names themselves. *)
Lemma flagSkips_not_read : skip_blind (RunWithParsedFlags E).
Proof.
  unfold RunWithParsedFlags. apply blind_gets_cmd; [|done]. intros c.
  destruct (decide _).
  { apply blind_bind; [apply blind_emit|]. intros _. apply blind_ret. }
  apply blind_bind; [apply blind_modify_session|]. intros _.
  apply blind_bind; [apply blind_StartSpan|]. intros [ctx span].
  unfold defer. apply blind_bind; [apply blind_runChecks|]. intros r.
  apply blind_bind; [|intros _; apply blind_ret].
  apply blind_bind; [apply blind_modify_session|]. intros _.
  apply blind_bind; [|intros rep; apply blind_emit].
  apply blind_bind; [by apply blind_gets|]. intros spans.
  apply blind_bind; [by apply blind_modify|]. intros _.
  apply blind_bind; [apply blind_emit|]. intros _. apply blind_ret.
Qed.
End Blind.

(** ** Reading traces *)

Lemma omap_fmap_None {A B C : Type} (f : B -> option C) (g : A -> B) (l : list A) :
  (forall x, f (g x) = None) -> omap f (g <$> l) = [].
Proof. intros H. induction l as [|x l IH]; [done|]. cbn. by rewrite H. Qed.

Lemma omap_fmap_Some {A B C : Type} (f : B -> option C) (g : A -> B) (h : A -> C)
    (l : list A) :
  (forall x, f (g x) = Some (h x)) -> omap f (g <$> l) = h <$> l.
Proof. intros H. induction l as [|x l IH]; [done|]. cbn. by rewrite H, IH. Qed.

Ltac obs :=
  unfold written, shutdowns, invoked, returned, check_events, opened, closed,
    storage_calls, validated;
  repeat first
    [ rewrite omap_app
    | rewrite omap_fmap_None by done
    | rewrite (omap_fmap_Some _ _ (fun x => x)) by done
    | rewrite list_fmap_id
    | progress cbn [omap list_omap app length] ];
  rewrite ?app_nil_r, ?app_nil_l.

Section Claims.
Variable E : Env.

(** The events of the "init-listeners" check function, in one shape for all
    its ways to return. *)
Lemma listeners_trace cfg dc i s :
  let r := initListenersCheck E cfg dc (Some i) s in
  let n := length (cserver.Listeners cfg) in
  exists k lcs vs cl,
    trace r = (ListenerOpen <$> seq 0 k) ++ (TLSConfigCall <$> lcs) ++
              (ListenerChecksCall <$> vs) ++ (ListenerClose <$> cl) /\
    (cl = [] \/ (cl = seq 0 n /\ k = n /\ sync.done (cleanupGuard (cmd s)) = false)) /\
    (vs = [] \/ vs = [filter tls_enabled (bound 0 (cserver.Listeners cfg))]).
Proof.
  cbv zeta.
  destruct (initListenersCheck_run E cfg dc i s)
    as (_ & _ & [(k & lc & e & _ & _ & _ & Ht & _) | (_ & _ & _ & lcs & vs & Hvs & Ht)]).
  - exists k, [], [], []. rewrite Ht. cbn. rewrite app_nil_r. split; [done|]. by split; left.
  - exists (length (cserver.Listeners cfg)), lcs, vs,
      (if sync.done (cleanupGuard (cmd s)) then [] else seq 0 (length (cserver.Listeners cfg))).
    rewrite Ht. split; [by destruct (sync.done _)|].
    split; [by destruct (sync.done _); [left|right]|done].
Qed.

Lemma run_cases s :
  flagConfigs (cmd s) <> [] ->
  let r := RunWithParsedFlags E s in
  let paths := flagConfigs (cmd s) in
  exists rep body,
    trace r = UIOutput (FullVersionNumber E) :: body ++
              [DiagShutdown; ReportWrite os_Stdout rep] /\
    tree rep = session (final r) /\
    ((exists e,
        parseConfig E paths = inr e /\ result r = 1%Z /\ cmd (final r) = cmd s /\
        body = [CheckInvoked "Parse configuration"; ParseConfigCall paths;
                CheckReturned "Parse configuration" (Some e)] /\
        skeleton <$> tree rep =
          [root_sk [nope]; check_sk "Parse configuration" [mkMessage SevError e]])
     \/
     (exists cfg s2 lw,
        parseConfig E paths = inl cfg /\ cmd s2 = cmd s /\ Forall is_warning lw /\
        let r2 := initListenersCheck E cfg (disableClustering_of cfg) (Some 2) s2 in
        cmd (final r) = cmd (final r2) /\
        ((exists e,
            result r2 = Some e /\ result r = 1%Z /\
            body = [CheckInvoked "Parse configuration"; ParseConfigCall paths;
                    CheckReturned "Parse configuration" None;
                    CheckInvoked "init-listeners"] ++ trace r2 ++
                   [CheckReturned "init-listeners" (Some e)] /\
            skeleton <$> tree rep =
              [root_sk [nope];
               check_sk "Parse configuration" (validation_warnings E cfg);
               check_sk "init-listeners" (lw ++ [mkMessage SevError e])])
         \/
         (result r2 = None /\
          result r = exit_of (setupStorage E cfg) /\
          body = [CheckInvoked "Parse configuration"; ParseConfigCall paths;
                  CheckReturned "Parse configuration" None;
                  CheckInvoked "init-listeners"] ++ trace r2 ++
                 [CheckReturned "init-listeners" None;
                  CheckInvoked "storage"; SetupStorageCall cfg;
                  CheckReturned "storage" (setupStorage E cfg)] /\
          skeleton <$> tree rep =
            [root_sk [nope];
             check_sk "Parse configuration" (validation_warnings E cfg);
             check_sk "init-listeners" lw;
             check_sk "storage" (error_messages (setupStorage E cfg))])))).
Proof.
  intros Hne. cbv zeta. rewrite (RunWithParsedFlags_unfold E s Hne).
  destruct (finalize_run (runChecks E (Some 0)) 0 (started s))
    as (Hres & Hcmd & rep & Ht & Htree & Hsk).
  cbv zeta in Hres, Hcmd, Ht, Htree, Hsk.
  destruct (runChecks_run E (started s) []) as (body & sk & Hbody & Hsk' & Hcases); [done|].
  cbv zeta in Hbody, Hsk', Hcases.
  exists rep, body. rewrite Ht, Hbody, Hres, Hcmd, Hsk, Hsk'.
  split; [done|]. split; [done|].
  change (cmd (started s)) with (cmd s) in Hcases.
  exact Hcases.
Qed.

(** The report is written once, at the end. *)
Lemma run_written s :
  flagConfigs (cmd s) <> [] ->
  let r := RunWithParsedFlags E s in
  exists rep pre,
    trace r = pre ++ [DiagShutdown; ReportWrite os_Stdout rep] /\
    written pre = [] /\ shutdowns pre = 0 /\
    tree rep = session (final r).
Proof.
  intros Hne. cbv zeta.
  destruct (run_cases s Hne) as (rep & body & Ht & Htree & Hcases).
  cbv zeta in Ht, Htree, Hcases.
  exists rep, (UIOutput (FullVersionNumber E) :: body).
  split; [done|]. split; [|split; [|done]].
  - destruct Hcases as [(e & _ & _ & _ & -> & _) | (cfg & s2 & lw & _ & _ & _ & _ & Hc)];
      [done|].
    destruct (listeners_trace cfg (disableClustering_of cfg) 2 s2)
      as (k & lcs & vs & cl & Ht2 & _ & _). cbv zeta in Ht2.
    destruct Hc as [(e & _ & _ & -> & _) | (_ & _ & -> & _)]; rewrite Ht2; by obs.
  - destruct Hcases as [(e & _ & _ & _ & -> & _) | (cfg & s2 & lw & _ & _ & _ & _ & Hc)];
      [done|].
    destruct (listeners_trace cfg (disableClustering_of cfg) 2 s2)
      as (k & lcs & vs & cl & Ht2 & _ & _). cbv zeta in Ht2.
    destruct Hc as [(e & _ & _ & -> & _) | (_ & _ & -> & _)]; rewrite Ht2; by obs.
Qed.

Lemma names_of_skeleton (l : list Span) :
  name <$> l = (fun k => k.1.1) <$> (skeleton <$> l).
Proof. by rewrite <- list_fmap_compose. Qed.

Lemma messages_of_skeleton (l : list Span) i sk :
  (skeleton <$> l) !! i = Some sk ->
  exists sp, l !! i = Some sp /\ name sp = sk.1.1 /\ parentId sp = sk.1.2 /\ messages sp = sk.2.
Proof.
  intros (sp & -> & Hsp)%list_lookup_fmap_Some. by exists sp.
Qed.

(** C2: on every run that passes flag validation the reporter is shut down
    exactly once and the report is written to standard output exactly once,
    as the last two actions of the run and whichever check ended it; the
    report written is the finalized span store, and it holds the root span
    followed by one span for each check that was invoked. *)
Theorem C2_report_written_exactly_once s :
  flagConfigs (cmd s) <> [] ->
  let r := RunWithParsedFlags E s in
  shutdowns (trace r) = 1 /\
  exists rep pre,
    written (trace r) = [rep] /\
    trace r = pre ++ [DiagShutdown; ReportWrite os_Stdout rep] /\
    tree rep = session (final r) /\
    name <$> tree rep = "initialization" :: invoked (trace r).
Proof.
  intros Hne. cbv zeta.
  destruct (run_cases s Hne) as (rep & body & Ht & Htree & Hcases).
  cbv zeta in Ht, Htree, Hcases. rewrite Ht.
  destruct Hcases as [(e & _ & _ & _ & -> & Hsk) | (cfg & s2 & lw & _ & _ & _ & _ & Hcases)].
  - split; [done|]. exists rep, [UIOutput (FullVersionNumber E);
      CheckInvoked "Parse configuration"; ParseConfigCall (flagConfigs (cmd s));
      CheckReturned "Parse configuration" (Some e)].
    by rewrite names_of_skeleton, Hsk.
  - destruct (listeners_trace cfg (disableClustering_of cfg) 2 s2)
      as (k & lcs & vs & cl & Ht2 & _ & _).
    cbv zeta in Ht2.
    destruct Hcases as [(e & _ & _ & -> & Hsk) | (_ & _ & -> & Hsk)]; rewrite Ht2.
    + split; [by obs|].
      eexists rep, (UIOutput _ :: _). split; [by obs|]. split; [done|].
      split; [done|]. rewrite names_of_skeleton, Hsk. by obs.
    + split; [by obs|].
      eexists rep, (UIOutput _ :: _). split; [by obs|]. split; [done|].
      split; [done|]. rewrite names_of_skeleton, Hsk. by obs.
Qed.


(** C3: the release action of the cleanup guard runs at most once.  A
    request on a released guard does nothing; after a first request for the
    close action any further request does nothing; the first request on a
    fresh guard closes every listener and marks the guard released; and in a
    run of the command no listener is closed twice, and none at all if the
    guard was released before the run. *)
Theorem C3_cleanup_guard_at_most_once :
  (forall (f : M unit) s,
      sync.done (cleanupGuard (cmd s)) = true -> cleanupGuard_Do f s = (tt, s, [])) /\
  (forall lns (g : M unit) s,
      (cleanupGuard_Do (listenerCloseFunc lns);; cleanupGuard_Do g) s =
      cleanupGuard_Do (listenerCloseFunc lns) s) /\
  (forall lns s,
      sync.done (cleanupGuard (cmd s)) = false ->
      cleanupGuard_Do (listenerCloseFunc lns) s =
      (tt, release s, ListenerClose <$> (listenerutil.ln_Listener <$> lns))) /\
  (forall s, NoDup (closed (trace (RunWithParsedFlags E s)))) /\
  (forall s, sync.done (cleanupGuard (cmd s)) = true ->
             closed (trace (RunWithParsedFlags E s)) = []).
Proof.
  assert (Hrun : forall s,
    closed (trace (RunWithParsedFlags E s)) = [] \/
    (sync.done (cleanupGuard (cmd s)) = false /\
     exists n, closed (trace (RunWithParsedFlags E s)) = seq 0 n)).
  { intros s. destruct (decide (flagConfigs (cmd s) = [])) as [Hnil|Hne].
    { left. by rewrite (RunWithParsedFlags_noconfig E s Hnil). }
    destruct (run_cases s Hne) as (rep & body & Ht & _ & Hcases).
    cbv zeta in Ht, Hcases. rewrite Ht.
    destruct Hcases as [(e & _ & _ & _ & -> & _) | (cfg & s2 & lw & _ & Hc2 & _ & _ & Hcases)].
    { by left. }
    destruct (listeners_trace cfg (disableClustering_of cfg) 2 s2)
      as (k & lcs & vs & cl & Ht2 & Hcl & _).
    cbv zeta in Ht2. rewrite Hc2 in Hcl.
    assert (Hbody : closed (UIOutput (FullVersionNumber E) :: body ++
                     [DiagShutdown; ReportWrite os_Stdout rep]) = cl).
    { destruct Hcases as [(e & _ & _ & -> & _) | (_ & _ & -> & _)]; rewrite Ht2; by obs. }
    rewrite Hbody.
    destruct Hcl as [->|(-> & _ & Hd)]; [by left|right].
    split; [done|]. by eexists. }
  split; [apply cleanupGuard_Do_released|].
  split.
  { intros lns g s. rewrite run_bind.
    destruct (sync.done (cleanupGuard (cmd s))) eqn:Hd.
    - rewrite (cleanupGuard_Do_released (listenerCloseFunc lns) s Hd). proj.
      by rewrite (cleanupGuard_Do_released g s Hd).
    - rewrite (cleanupGuard_Do_first (listenerCloseFunc lns) s Hd).
      rewrite listenerCloseFunc_run. proj.
      rewrite cleanupGuard_Do_released by done. proj. by rewrite app_nil_r. }
  split.
  { intros lns s Hd. rewrite (cleanupGuard_Do_first _ s Hd).
    by rewrite listenerCloseFunc_run. }
  split.
  - intros s. destruct (Hrun s) as [->|(_ & n & ->)]; [constructor|apply NoDup_seq].
  - intros s Hd. destruct (Hrun s) as [->|(Hd' & _)]; [done|congruence].
Qed.

(** What the checks of a run returned, in the four ways a run can go. *)
Lemma returned_cases s :
  flagConfigs (cmd s) <> [] ->
  let r := RunWithParsedFlags E s in
  let paths := flagConfigs (cmd s) in
  check_events (trace r) = concat (bracket <$> returned (trace r)) /\
  ((exists e,
      parseConfig E paths = inr e /\ result r = 1%Z /\
      returned (trace r) = [("Parse configuration", Some e)])
   \/
   (exists cfg s2,
      parseConfig E paths = inl cfg /\ cmd s2 = cmd s /\
      let r2 := initListenersCheck E cfg (disableClustering_of cfg) (Some 2) s2 in
      ((exists e,
          result r2 = Some e /\ result r = 1%Z /\
          returned (trace r) = [("Parse configuration", None); ("init-listeners", Some e)])
       \/
       (result r2 = None /\ result r = exit_of (setupStorage E cfg) /\
        returned (trace r) = [("Parse configuration", None); ("init-listeners", None);
                              ("storage", setupStorage E cfg)])))).
Proof.
  intros Hne. cbv zeta.
  destruct (run_cases s Hne) as (rep & body & Ht & _ & Hcases).
  cbv zeta in Ht, Hcases. rewrite Ht.
  destruct Hcases as [(e & Hp & Hr & _ & -> & _) | (cfg & s2 & lw & Hp & Hc2 & _ & _ & Hcases)].
  - split; [done|]. left. by exists e.
  - destruct (listeners_trace cfg (disableClustering_of cfg) 2 s2)
      as (k & lcs & vs & cl & Ht2 & _ & _).
    cbv zeta in Ht2.
    destruct Hcases as [(e & Hr2 & Hr & -> & _) | (Hr2 & Hr & -> & _)]; rewrite Ht2.
    + split; [by obs|]. right. exists cfg, s2. split; [done|]. split; [done|].
      left. exists e. split; [done|]. split; [done|]. by obs.
    + split; [by obs|]. right. exists cfg, s2. split; [done|]. split; [done|].
      right. split; [done|]. split; [done|]. by obs.
Qed.

Lemma exit_is_0_or_1 s :
  result (RunWithParsedFlags E s) = 0%Z \/ result (RunWithParsedFlags E s) = 1%Z.
Proof.
  destruct (decide (flagConfigs (cmd s) = [])) as [Hnil|Hne].
  { right. by rewrite (RunWithParsedFlags_noconfig E s Hnil). }
  destruct (returned_cases s Hne) as (_ & [(e & _ & -> & _) | (cfg & s2 & _ & _ & Hcases)]);
    [by right|].
  destruct Hcases as [(e & _ & -> & _) | (_ & -> & _)]; [by right|].
  destruct (setupStorage E cfg); [by right|by left].
Qed.

(** C4: the three checks run one after the other in the fixed order "Parse
    configuration", "init-listeners", "storage": a check returns before the
    next is invoked, the checks that returned are an initial part of that
    order, a check that returns an error is the last one of the run and the
    run exits 1, and when none returns an error all three have run.  After a
    configuration parse failure the run exits 1 and the report written holds
    the root span and the "Parse configuration" span only. *)
Theorem C4_checks_in_order_fail_fast s :
  flagConfigs (cmd s) <> [] ->
  let r := RunWithParsedFlags E s in
  let t := trace r in
  check_events t = concat (bracket <$> returned t) /\
  (exists k, 1 <= k <= 3 /\ (returned t).*1 = take k check_names) /\
  (forall i n e, returned t !! i = Some (n, Some e) ->
                 S i = length (returned t) /\ result r = 1%Z) /\
  ((forall n err, (n, err) ∈ returned t -> err = None) ->
   (returned t).*1 = check_names) /\
  (forall e, parseConfig E (flagConfigs (cmd s)) = inr e ->
     result r = 1%Z /\
     exists rep, written t = [rep] /\
       name <$> tree rep = ["initialization"; "Parse configuration"] /\
       ("init-listeners" ∉ (name <$> tree rep)) /\
       ("storage" ∉ (name <$> tree rep))).
Proof.
  intros Hne. cbv zeta.
  destruct (returned_cases s Hne) as (Hseq & Hcases). cbv zeta in Hseq, Hcases.
  split; [done|].
  assert (Hparse : forall e, parseConfig E (flagConfigs (cmd s)) = inr e ->
     result (RunWithParsedFlags E s) = 1%Z /\
     exists rep, written (trace (RunWithParsedFlags E s)) = [rep] /\
       name <$> tree rep = ["initialization"; "Parse configuration"] /\
       ("init-listeners" ∉ (name <$> tree rep)) /\
       ("storage" ∉ (name <$> tree rep))).
  { intros e He.
    destruct (run_cases s Hne) as (rep & body & Ht & _ & Hc).
    cbv zeta in Ht, Hc.
    destruct Hc as [(e' & _ & Hr & _ & -> & Hsk) | (cfg & s2 & lw & Hp & _)]; [|congruence].
    split; [done|]. exists rep. rewrite Ht, names_of_skeleton, Hsk.
    split; [by obs|]. split; [done|]. cbn.
    split; by intros [?|[?|?%elem_of_nil]%elem_of_cons]%elem_of_cons. }
  cut ((exists k, 1 <= k <= 3 /\
          (returned (trace (RunWithParsedFlags E s))).*1 = take k check_names) /\
       (forall i n e, returned (trace (RunWithParsedFlags E s)) !! i = Some (n, Some e) ->
          S i = length (returned (trace (RunWithParsedFlags E s))) /\
          result (RunWithParsedFlags E s) = 1%Z) /\
       ((forall n err, (n, err) ∈ returned (trace (RunWithParsedFlags E s)) -> err = None) ->
        (returned (trace (RunWithParsedFlags E s))).*1 = check_names)).
  { intros (H1 & H2 & H3).
    split; [exact H1|]. split; [exact H2|]. split; [exact H3|exact Hparse]. }
  clear Hparse.
  destruct Hcases as [(e & Hp & Hr & Hret) | (cfg & s2 & Hp & _ & Hcases)].
  - rewrite Hret, Hr. split; [exists 1; split; [lia|done]|]. split.
    + intros [|i] n e' Hi; by simplify_eq/=.
    + intros Hall. specialize (Hall _ _ (list_elem_of_here _ _)). done.
  - cbv zeta in Hcases.
    destruct Hcases as [(e & _ & Hr & Hret) | (_ & Hr & Hret)]; rewrite Hret, Hr.
    + split; [exists 2; split; [lia|done]|]. split.
      * intros [|[|i]] n e' Hi; by simplify_eq/=.
      * intros Hall.
        specialize (Hall _ _ (list_elem_of_further _ _ _ (list_elem_of_here _ _))). done.
    + split; [exists 3; split; [lia|done]|]. split; [|done].
      intros [|[|[|i]]] n e' Hi; cbn in Hi; try done.
      injection Hi as _ Hst. by rewrite Hst.
Qed.

(** C5: the exit code.  Without a [-config] path the command exits 1 before
    any check runs.  Otherwise it exits 0 exactly when every check that was
    executed returned no error (the command skips none), and 1 in every other
    case: in particular when the configuration fails to parse, when a
    listener fails to bind, when the TLS configuration of a listener with TLS
    enabled cannot be built, and when the storage backend cannot be set up. *)
Theorem C5_exit_code s :
  let r := RunWithParsedFlags E s in
  let paths := flagConfigs (cmd s) in
  (paths = [] ->
     result r = 1%Z /\ final r = s /\
     trace r = [UIError "Must specify a configuration file using -config."]) /\
  (paths <> [] ->
     (result r = 0%Z <-> forall n err, (n, err) ∈ returned (trace r) -> err = None)) /\
  (result r = 0%Z \/ result r = 1%Z) /\
  (forall e, parseConfig E paths = inr e -> result r = 1%Z) /\
  (forall cfg, parseConfig E paths = inl cfg ->
     (forall k lc e, cserver.Listeners cfg !! k = Some lc ->
                     NewListener E k lc = Some e -> result r = 1%Z) /\
     (forall lc e, lc ∈ cserver.Listeners cfg -> cserver.TLSDisable lc = false ->
                   TLSConfig E lc = Some e -> result r = 1%Z) /\
     (forall e, setupStorage E cfg = Some e -> result r = 1%Z)).
Proof.
  cbv zeta. split.
  { intros Hnil. by rewrite (RunWithParsedFlags_noconfig E s Hnil). }
  split.
  { intros Hne.
    destruct (returned_cases s Hne) as (_ & [(e & _ & -> & ->) | (cfg & s2 & _ & _ & Hc)]).
    - split; [done|]. intros Hall. specialize (Hall _ _ (list_elem_of_here _ _)). done.
    - cbv zeta in Hc. destruct Hc as [(e & _ & -> & ->) | (_ & -> & ->)].
      + split; [done|]. intros Hall.
        specialize (Hall _ _ (list_elem_of_further _ _ _ (list_elem_of_here _ _))). done.
      + destruct (setupStorage E cfg) as [e|]; cbn.
        * split; [done|]. intros Hall.
          specialize (Hall "storage" (Some e)). discriminate Hall.
          by do 2 apply list_elem_of_further; apply list_elem_of_here.
        * split; [|done]. intros _ n err Hin.
          repeat (apply elem_of_cons in Hin as [Hin|Hin]; [by injection Hin|]).
          by apply elem_of_nil in Hin. }
  split; [apply exit_is_0_or_1|].
  destruct (decide (flagConfigs (cmd s) = [])) as [Hnil|Hne].
  { rewrite (RunWithParsedFlags_noconfig E s Hnil). proj. by repeat split. }
  destruct (returned_cases s Hne) as (_ & [(e & Hp & Hr & _) | (cfg & s2 & Hp & _ & Hc)]).
  { split; [done|]. intros cfg Hcfg. congruence. }
  split; [intros e He; congruence|].
  intros cfg' Hcfg. assert (cfg' = cfg) as -> by congruence. cbv zeta in Hc.
  destruct Hc as [(e & _ & Hr & _) | (Hr2 & Hr & _)]; [by repeat split|].
  destruct (initListenersCheck_run E cfg (disableClustering_of cfg) 2 s2)
    as (_ & _ & [(k & lc & e & _ & _ & Hr2' & _) | (Hall & Htls & _)]);
    cbv zeta in *; [congruence|].
  split; [|split].
  - intros k lc e Hk Hfail. rewrite (Hall k lc Hk) in Hfail. done.
  - intros lc e Hin Hdis Hfail. by destruct (Htls lc e Hin Hdis Hfail).
  - intros e He. by rewrite Hr, He.
Qed.

Lemma bound_lookup (stanzas : list cserver.ListenerConfig) k lc : forall i,
  stanzas !! k = Some lc -> bound i stanzas !! k = Some (listenerutil.mkListener (i + k) lc).
Proof.
  unfold bound. revert k. induction stanzas as [|lc' rest IH]; intros k i Hk; [done|].
  destruct k as [|k]; cbn in *.
  - rewrite Nat.add_0_r. congruence.
  - rewrite <- Nat.add_succ_comm. by apply IH.
Qed.

(** Once every listener is bound, the check function closes all of them as
    its last action, whichever way it returns. *)
Lemma all_bound_run cfg dc i s :
  sync.done (cleanupGuard (cmd s)) = false ->
  (forall k lc, cserver.Listeners cfg !! k = Some lc -> NewListener E k lc = None) ->
  let r := initListenersCheck E cfg dc (Some i) s in
  let hs := seq 0 (length (cserver.Listeners cfg)) in
  exists mid,
    trace r = (ListenerOpen <$> hs) ++ mid ++ (ListenerClose <$> hs) /\
    opened mid = [] /\ closed mid = [] /\
    sync.done (cleanupGuard (cmd (final r))) = true.
Proof.
  intros Hd Hall. cbv zeta.
  destruct (initListenersCheck_run E cfg dc i s)
    as (_ & _ & [(k & lc & e & Hk & Hfail & _) | (_ & _ & Hdone & lcs & vs & _ & Ht)]);
    cbv zeta in *.
  { rewrite (Hall k lc Hk) in Hfail. done. }
  rewrite Hd in Ht.
  exists ((TLSConfigCall <$> lcs) ++ (ListenerChecksCall <$> vs)).
  rewrite Ht, <- !app_assoc. split; [done|]. split; [by obs|]. split; [by obs|done].
Qed.

(** C6 (amended): the close action is handed to the cleanup guard once
    [InitListeners] has returned with every configured listener bound, before
    the TLS configurations are built and the listeners validated.  From there
    on, whichever way the check function returns, the guard is asked to close
    the listeners when it returns.  On a guard that was not released before
    the check, every bound listener is closed exactly once, after all other
    events of the check; on a guard that was released before, nothing is
    closed.  In both cases the guard is released afterwards.  This holds in
    particular when the TLS configuration of a listener cannot be built and
    the check returns an error. *)
Theorem C6_cleanup_registered_once_all_bound cfg dc i s :
  (forall k lc, cserver.Listeners cfg !! k = Some lc -> NewListener E k lc = None) ->
  let r := initListenersCheck E cfg dc (Some i) s in
  let hs := seq 0 (length (cserver.Listeners cfg)) in
  let covered := if sync.done (cleanupGuard (cmd s)) then [] else hs in
  (exists mid,
     trace r = (ListenerOpen <$> hs) ++ mid ++ (ListenerClose <$> covered) /\
     opened mid = [] /\ closed mid = []) /\
  opened (trace r) = hs /\ closed (trace r) = covered /\
  sync.done (cleanupGuard (cmd (final r))) = true /\
  (forall lc e, lc ∈ cserver.Listeners cfg -> cserver.TLSDisable lc = false ->
                TLSConfig E lc = Some e -> result r <> None).
Proof.
  intros Hall. cbv zeta.
  destruct (initListenersCheck_run E cfg dc i s)
    as (_ & _ & [(k & lc & e & Hk & Hfail & _) | (_ & Htls & Hdone & lcs & vs & _ & Ht)]);
    cbv zeta in *.
  { rewrite (Hall k lc Hk) in Hfail. done. }
  assert (Ht' : trace (initListenersCheck E cfg dc (Some i) s) =
                (ListenerOpen <$> seq 0 (length (cserver.Listeners cfg))) ++
                ((TLSConfigCall <$> lcs) ++ (ListenerChecksCall <$> vs)) ++
                (ListenerClose <$> (if sync.done (cleanupGuard (cmd s)) then []
                                    else seq 0 (length (cserver.Listeners cfg))))).
  { rewrite Ht, <- !app_assoc. by destruct (sync.done (cleanupGuard (cmd s))). }
  split.
  { eexists. split; [exact Ht'|]. split; by obs. }
  split; [rewrite Ht'; by obs|].
  split; [rewrite Ht'; by obs|].
  by split.
Qed.

(** What the report of a run holds for the root span and for the "Parse
    configuration" span. *)
Lemma report_spans s :
  flagConfigs (cmd s) <> [] ->
  let r := RunWithParsedFlags E s in
  exists rep root,
    written (trace r) = [rep] /\
    tree rep !! 0 = Some root /\
    name root = "initialization" /\ parentId root = None /\ messages root = [nope] /\
    forall cfg, parseConfig E (flagConfigs (cmd s)) = inl cfg ->
      exists sp, tree rep !! 1 = Some sp /\ name sp = "Parse configuration" /\
                 parentId sp = Some 0 /\ messages sp = validation_warnings E cfg.
Proof.
  intros Hne. cbv zeta.
  destruct (run_written s Hne) as (rep & pre & Ht & Hw & _ & _).
  destruct (run_cases s Hne) as (rep' & body & Ht' & _ & Hcases).
  cbv zeta in *.
  assert (rep' = rep) as ->.
  { rewrite Ht' in Ht. apply (f_equal (fun l => last l)) in Ht. revert Ht.
    rewrite app_comm_cons, !last_app. cbn. congruence. }
  assert (Hw' : written (trace (RunWithParsedFlags E s)) = [rep]).
  { rewrite Ht. unfold written in *. rewrite omap_app, Hw. done. }
  assert (Hsk : exists rest ms,
    skeleton <$> tree rep = root_sk [nope] :: check_sk "Parse configuration" ms :: rest /\
    forall cfg, parseConfig E (flagConfigs (cmd s)) = inl cfg -> ms = validation_warnings E cfg).
  { destruct Hcases as [(e & Hp & _ & _ & _ & Hsk) | (cfg & s2 & lw & Hp & _ & _ & _ & Hc)].
    - eexists _, _. split; [exact Hsk|]. intros cfg Hcfg. congruence.
    - destruct Hc as [(e & _ & _ & _ & Hsk) | (_ & _ & _ & Hsk)];
        (eexists _, _; split; [exact Hsk|]; intros cfg' Hcfg; congruence). }
  destruct Hsk as (rest & ms & Hsk & Hms).
  destruct (messages_of_skeleton (tree rep) 0 (root_sk [nope])) as (root & H0 & Hn & Hp & Hm).
  { by rewrite Hsk. }
  exists rep, root. split; [done|]. repeat split; try done.
  intros cfg Hcfg.
  destruct (messages_of_skeleton (tree rep) 1 (check_sk "Parse configuration" ms))
    as (sp & H1 & Hn1 & Hp1 & Hm1).
  { by rewrite Hsk. }
  exists sp. rewrite (Hms cfg Hcfg) in Hm1. by repeat split.
Qed.

(** C8 (what the code does): every run that passes flag validation records
    the error "nope, didn't work" on the root span, whatever the environment
    and whatever the [-debug] flag; it is the only message of the root span
    in the report written. *)
Theorem C8_one_off_error_always_recorded s :
  flagConfigs (cmd s) <> [] ->
  let r := RunWithParsedFlags E s in
  exists rep root,
    written (trace r) = [rep] /\
    tree rep !! 0 = Some root /\
    name root = "initialization" /\ parentId root = None /\
    messages root = [mkMessage SevError "nope, didn't work"].
Proof.
  intros Hne. cbv zeta.
  destruct (report_spans s Hne) as (rep & root & Hw & H0 & Hn & Hp & Hm & _).
  by exists rep, root.
Qed.

(** C9: when the configuration parses, the "Parse configuration" span of the
    report holds exactly the validation warnings of the parsed configuration,
    as warnings and in order; the check function returns no error; and the
    run goes on to invoke the "init-listeners" check, although warnings and
    the error of the root span have been recorded by then. *)
Theorem C9_validation_warnings_recorded s cfg :
  flagConfigs (cmd s) <> [] ->
  parseConfig E (flagConfigs (cmd s)) = inl cfg ->
  let r := RunWithParsedFlags E s in
  (exists rep root sp,
     written (trace r) = [rep] /\
     tree rep !! 0 = Some root /\ nope ∈ messages root /\
     tree rep !! 1 = Some sp /\ name sp = "Parse configuration" /\
     messages sp =
       (fun cerr => mkMessage SevWarn (cserver.cerr_String cerr)) <$> Validate E cfg "test") /\
  exists rest,
    trace r = [UIOutput (FullVersionNumber E);
               CheckInvoked "Parse configuration";
               ParseConfigCall (flagConfigs (cmd s));
               CheckReturned "Parse configuration" None;
               CheckInvoked "init-listeners"] ++ rest.
Proof.
  intros Hne Hcfg. cbv zeta. split.
  - destruct (report_spans s Hne) as (rep & root & Hw & H0 & _ & _ & Hm & Hsp).
    destruct (Hsp cfg Hcfg) as (sp & H1 & Hn & _ & Hms).
    exists rep, root, sp. repeat split; try done.
    rewrite Hm. apply list_elem_of_here.
  - destruct (run_cases s Hne) as (rep & body & Ht & _ & Hcases). cbv zeta in *.
    rewrite Ht.
    destruct Hcases as [(e & Hp & _) | (cfg' & s2 & lw & _ & _ & _ & _ & Hc)]; [congruence|].
    destruct Hc as [(e & _ & _ & -> & _) | (_ & _ & -> & _)]; by eexists.
Qed.

(** C10 (amended): in a run that starts with the cleanup guard not yet
    released, in which the configuration parses and every configured listener
    is bound, all listeners are closed as the last action of the
    "init-listeners" check function, before it returns: nothing is closed
    later, and the storage check is invoked and the storage factory called
    only after that, if at all. *)
Theorem C10_listeners_closed_when_check_returns s cfg :
  flagConfigs (cmd s) <> [] ->
  sync.done (cleanupGuard (cmd s)) = false ->
  parseConfig E (flagConfigs (cmd s)) = inl cfg ->
  (forall k lc, cserver.Listeners cfg !! k = Some lc -> NewListener E k lc = None) ->
  let r := RunWithParsedFlags E s in
  let hs := seq 0 (length (cserver.Listeners cfg)) in
  exists pre err post,
    trace r = pre ++ (ListenerClose <$> hs) ++
              CheckReturned "init-listeners" err :: post /\
    opened pre = hs /\ closed pre = [] /\
    storage_calls pre = [] /\ ("storage" ∉ invoked pre) /\
    opened post = [] /\ closed post = [] /\
    (err = None -> invoked post = ["storage"] /\ storage_calls post = [cfg]).
Proof.
  intros Hne Hd Hcfg Hall. cbv zeta.
  destruct (run_cases s Hne) as (rep & body & Ht & _ & Hcases). cbv zeta in *.
  rewrite Ht. clear Ht.
  destruct Hcases as [(e & Hp & _) | (cfg' & s2 & lw & Hp & Hc2 & _ & _ & Hc)]; [congruence|].
  assert (cfg' = cfg) as -> by congruence.
  destruct (all_bound_run cfg (disableClustering_of cfg) 2 s2)
    as (mid & Ht2 & Hom & Hcm & _); [by rewrite Hc2|done|].
  cbv zeta in Ht2.
  assert (Hmid : storage_calls mid = [] /\ invoked mid = []).
  { destruct (listeners_trace cfg (disableClustering_of cfg) 2 s2)
      as (k & lcs & vs & cl & Ht2' & _ & _). cbv zeta in Ht2'.
    rewrite Ht2 in Ht2'.
    split.
    - apply (f_equal storage_calls) in Ht2'. revert Ht2'. by obs.
    - apply (f_equal invoked) in Ht2'. revert Ht2'. by obs. }
  destruct Hmid as [Hsm Him].
  unfold opened, closed, storage_calls, invoked in Hom, Hcm, Hsm, Him.
  destruct Hc as [(e & _ & _ & -> & _) | (_ & _ & -> & _)]; rewrite Ht2.
  - eexists ([UIOutput _; CheckInvoked "Parse configuration"; ParseConfigCall _;
              CheckReturned "Parse configuration" None; CheckInvoked "init-listeners"] ++
             (ListenerOpen <$> seq 0 (length (cserver.Listeners cfg))) ++ mid),
            (Some e), _.
    split; [by rewrite <- !app_assoc|].
    split; [obs; by rewrite Hom, app_nil_r|].
    split; [obs; by rewrite Hcm|].
    split; [obs; by rewrite Hsm|].
    split; [obs; rewrite Him;
            by intros [?|[?|?%elem_of_nil]%elem_of_cons]%elem_of_cons|].
    by repeat split.
  - eexists ([UIOutput _; CheckInvoked "Parse configuration"; ParseConfigCall _;
              CheckReturned "Parse configuration" None; CheckInvoked "init-listeners"] ++
             (ListenerOpen <$> seq 0 (length (cserver.Listeners cfg))) ++ mid),
            None, _.
    split; [by rewrite <- !app_assoc|].
    split; [obs; by rewrite Hom, app_nil_r|].
    split; [obs; by rewrite Hcm|].
    split; [obs; by rewrite Hsm|].
    split; [obs; rewrite Him;
            by intros [?|[?|?%elem_of_nil]%elem_of_cons]%elem_of_cons|].
    by repeat split.
Qed.
End Claims.

(** ** The claims on sample runs *)

(** The check runner of the specification, given the skip set of the
    command line, would skip the storage check: the check function is not
    invoked and the span is marked [skip]. *)
Example TestSkipping_skips_storage :
  let r := diagnose.TestSkipping ["storage"] (Some 0) "storage"
             (storageCheck healthy_env sample_config)
             (started (sample_state ["storage"])) in
  result r = None /\ trace r = [] /\
  status <$> session (final r) !! 1 = Some st_skip.
Proof. vm_compute. by repeat split. Qed.

(** C1 (what the code does): the [-skip] names have no effect.  For every
    environment and state, replacing the skip names changes neither the exit
    code nor the trace of the run.  With [-skip storage] on the command line
    the command still invokes all three check functions, calls the storage
    factory and reports the "storage" span as [ok], not [skip]; and when the
    storage backend cannot be built the run exits 1 although the storage
    check was to be skipped. *)
Theorem C1_skip_flag_is_not_consulted :
  (forall E k s,
     result (RunWithParsedFlags E (with_skips k s)) = result (RunWithParsedFlags E s) /\
     trace (RunWithParsedFlags E (with_skips k s)) = trace (RunWithParsedFlags E s)) /\
  let r := RunWithParsedFlags healthy_env (sample_state ["storage"]) in
  let r' := RunWithParsedFlags storage_down_env (sample_state ["storage"]) in
  flagSkips (cmd (sample_state ["storage"])) = ["storage"] /\
  invoked (trace r) = check_names /\
  storage_calls (trace r) = [sample_config] /\
  (exists rep sp, written (trace r) = [rep] /\ tree rep !! 3 = Some sp /\
                  name sp = "storage" /\ status sp = st_ok) /\
  result r = 0%Z /\
  storage_calls (trace r') = [sample_config] /\
  result r' = 1%Z.
Proof.
  split.
  { intros E k s. by rewrite (flagSkips_not_read E k s). }
  cbv zeta. split; [reflexivity|]. split; [by vm_compute|]. split; [by vm_compute|].
  split; [|split; [by vm_compute|split; by vm_compute]].
  eexists _, _. vm_compute. by repeat split.
Qed.

(** C2 on the sample run in which everything succeeds. *)
Lemma C2_witness :
  flagConfigs (cmd (sample_state [])) <> [] /\
  shutdowns (trace (RunWithParsedFlags healthy_env (sample_state []))) = 1 /\
  exists rep pre,
    written (trace (RunWithParsedFlags healthy_env (sample_state []))) = [rep] /\
    trace (RunWithParsedFlags healthy_env (sample_state [])) =
      pre ++ [DiagShutdown; ReportWrite os_Stdout rep] /\
    tree rep = session (final (RunWithParsedFlags healthy_env (sample_state []))) /\
    name <$> tree rep =
      "initialization" :: invoked (trace (RunWithParsedFlags healthy_env (sample_state []))).
Proof.
  split; [discriminate|].
  apply (C2_report_written_exactly_once healthy_env (sample_state [])).
  discriminate.
Defined.

(** C3 on the guard released before the run, and fresh. *)
Lemma C3_witness :
  sync.done (cleanupGuard (cmd (release (sample_state [])))) = true /\
  cleanupGuard_Do (listenerCloseFunc (bound 0 [tls_stanza; plain_stanza]))
                  (release (sample_state [])) =
    (tt, release (sample_state []), []) /\
  closed (trace (RunWithParsedFlags healthy_env (release (sample_state [])))) = [] /\
  NoDup (closed (trace (RunWithParsedFlags healthy_env (sample_state [])))).
Proof.
  destruct (C3_cleanup_guard_at_most_once healthy_env) as (H1 & _ & _ & H4 & H5).
  split; [reflexivity|].
  split; [apply H1; reflexivity|].
  split; [apply H5; reflexivity|apply H4].
Defined.

(** C4 on the sample run in which the second listener cannot be bound. *)
Lemma C4_witness :
  flagConfigs (cmd (sample_state [])) <> [] /\
  check_events (trace (RunWithParsedFlags second_bind_fails_env (sample_state []))) =
    concat (bracket <$>
             returned (trace (RunWithParsedFlags second_bind_fails_env (sample_state [])))) /\
  exists k, 1 <= k <= 3 /\
    (returned (trace (RunWithParsedFlags second_bind_fails_env (sample_state [])))).*1 =
      take k check_names.
Proof.
  split; [discriminate|].
  pose proof (C4_checks_in_order_fail_fast second_bind_fails_env (sample_state [])) as W.
  cbv zeta in W. destruct W as (W1 & W2 & _); [discriminate|]. by split.
Defined.

(** C5 on the sample runs with and without a storage backend that can be built. *)
Lemma C5_witness :
  flagConfigs (cmd (sample_state [])) <> [] /\
  setupStorage storage_down_env sample_config = Some "storage backend is locked" /\
  result (RunWithParsedFlags storage_down_env (sample_state [])) = 1%Z /\
  (result (RunWithParsedFlags healthy_env (sample_state [])) = 0%Z <->
   forall n err,
     (n, err) ∈ returned (trace (RunWithParsedFlags healthy_env (sample_state []))) ->
     err = None).
Proof.
  split; [discriminate|]. split; [reflexivity|].
  pose proof (C5_exit_code storage_down_env (sample_state [])) as W.
  pose proof (C5_exit_code healthy_env (sample_state [])) as W'.
  cbv zeta in W, W'.
  destruct W as (_ & _ & _ & _ & W). destruct W' as (_ & W' & _).
  split.
  - destruct (W sample_config) as (_ & _ & W3); [reflexivity|].
    apply (W3 "storage backend is locked"). reflexivity.
  - apply W'. discriminate.
Defined.

(** C6 (as stated) fails, on two inputs.  First, the second listener cannot
    be bound: the first one has been bound, the check function returns the
    bind error before the close action is handed to the cleanup guard, and
    the run ends with the first listener open and the guard unreleased.
    Second, a second run on the command of a first run in which both
    listeners were bound: both listeners are bound again, the TLS
    configuration of the first cannot be built, and the guard, released by
    the first run, closes nothing. *)
Lemma C6_counterexample :
  let r := RunWithParsedFlags second_bind_fails_env (sample_state []) in
  let r' := RunWithParsedFlags tls_fails_env
              (final (RunWithParsedFlags tls_fails_env (sample_state []))) in
  (opened (trace r) = [0] /\ closed (trace r) = [] /\
   sync.done (cleanupGuard (cmd (final r))) = false /\
   result r = 1%Z /\
   ~ (forall h, h ∈ opened (trace r) -> h ∈ closed (trace r))) /\
  (opened (trace r') = [0; 1] /\ closed (trace r') = [] /\
   tls_calls (trace r') = [tls_stanza] /\
   result r' = 1%Z /\
   ~ (forall h, h ∈ opened (trace r') -> h ∈ closed (trace r'))).
Proof.
  cbv zeta.
  assert (Ho : opened (trace (RunWithParsedFlags second_bind_fails_env (sample_state []))) = [0])
    by by vm_compute.
  assert (Hc : closed (trace (RunWithParsedFlags second_bind_fails_env (sample_state []))) = [])
    by by vm_compute.
  assert (Ho' : opened (trace (RunWithParsedFlags tls_fails_env
                  (final (RunWithParsedFlags tls_fails_env (sample_state []))))) = [0; 1])
    by by vm_compute.
  assert (Hc' : closed (trace (RunWithParsedFlags tls_fails_env
                  (final (RunWithParsedFlags tls_fails_env (sample_state []))))) = [])
    by by vm_compute.
  rewrite Ho, Hc, Ho', Hc'. split.
  - split; [done|]. split; [done|]. split; [by vm_compute|]. split; [by vm_compute|].
    intros H. specialize (H 0 (list_elem_of_here _ _)). by apply elem_of_nil in H.
  - split; [done|]. split; [done|]. split; [by vm_compute|]. split; [by vm_compute|].
    intros H. specialize (H 0 (list_elem_of_here _ _)). by apply elem_of_nil in H.
Qed.

(** C6 (amended) on the sample configuration with both listeners bound, in
    an environment in which the TLS configuration of the first listener
    cannot be built: on a guard not yet released both listeners are closed,
    on a released guard none is. *)
Lemma C6_witness :
  (forall k lc, cserver.Listeners sample_config !! k = Some lc ->
                NewListener tls_fails_env k lc = None) /\
  opened (trace (initListenersCheck tls_fails_env sample_config false (Some 0)
                   (started (sample_state [])))) = [0; 1] /\
  closed (trace (initListenersCheck tls_fails_env sample_config false (Some 0)
                   (started (sample_state [])))) = [0; 1] /\
  result (initListenersCheck tls_fails_env sample_config false (Some 0)
            (started (sample_state []))) <> None /\
  opened (trace (initListenersCheck tls_fails_env sample_config false (Some 0)
                   (release (started (sample_state []))))) = [0; 1] /\
  closed (trace (initListenersCheck tls_fails_env sample_config false (Some 0)
                   (release (started (sample_state []))))) = [].
Proof.
  split; [reflexivity|].
  pose proof (C6_cleanup_registered_once_all_bound tls_fails_env sample_config false 0
                (started (sample_state []))) as W.
  pose proof (C6_cleanup_registered_once_all_bound tls_fails_env sample_config false 0
                (release (started (sample_state [])))) as W'.
  cbv zeta in W, W'.
  destruct W as (_ & W1 & W2 & _ & W3); [reflexivity|].
  destruct W' as (_ & W1' & W2' & _); [reflexivity|].
  split; [exact W1|]. split; [exact W2|].
  split; [apply (W3 tls_stanza _ ltac:(by apply list_elem_of_here) eq_refl eq_refl)|].
  split; [exact W1'|exact W2'].
Defined.

(** C8 on the sample run in which everything succeeds, without [-debug]. *)
Lemma C8_witness :
  flagConfigs (cmd (sample_state [])) <> [] /\
  flagDebug (cmd (sample_state [])) = false /\
  exists rep root,
    written (trace (RunWithParsedFlags healthy_env (sample_state []))) = [rep] /\
    tree rep !! 0 = Some root /\
    name root = "initialization" /\ parentId root = None /\
    messages root = [mkMessage SevError "nope, didn't work"].
Proof.
  split; [discriminate|]. split; [reflexivity|].
  apply (C8_one_off_error_always_recorded healthy_env (sample_state [])).
  discriminate.
Defined.

(** C9 on the sample run in which everything succeeds. *)
Lemma C9_witness :
  flagConfigs (cmd (sample_state [])) <> [] /\
  parseConfig healthy_env (flagConfigs (cmd (sample_state []))) = inl sample_config /\
  exists rep root sp,
    written (trace (RunWithParsedFlags healthy_env (sample_state []))) = [rep] /\
    tree rep !! 0 = Some root /\ nope ∈ messages root /\
    tree rep !! 1 = Some sp /\ name sp = "Parse configuration" /\
    messages sp = [mkMessage SevWarn "unknown key in stanza"].
Proof.
  split; [discriminate|]. split; [reflexivity|].
  pose proof (C9_validation_warnings_recorded healthy_env (sample_state []) sample_config) as W.
  cbv zeta in W. destruct W as (W & _); [discriminate|reflexivity|]. exact W.
Defined.

(** C10 (as stated) fails on a second run on the same command: the first
    run has released the cleanup guard, which is a field of the command.  In
    the second run the "init-listeners" check function binds both listeners
    and returns no error, the guard closes nothing, and the storage factory
    is called while both listeners are open; they are not closed at the end
    of the run either. *)
Lemma C10_counterexample :
  let s1 := final (RunWithParsedFlags healthy_env (sample_state [])) in
  let r := RunWithParsedFlags healthy_env s1 in
  flagConfigs (cmd s1) = ["/etc/vault/config.hcl"] /\
  sync.done (cleanupGuard (cmd s1)) = true /\
  opened (trace r) = [0; 1] /\
  returned (trace r) =
    [("Parse configuration", None); ("init-listeners", None); ("storage", None)] /\
  storage_calls (trace r) = [sample_config] /\
  closed (trace r) = [] /\
  ~ (forall h, h ∈ opened (trace r) -> h ∈ closed (trace r)).
Proof.
  cbv zeta.
  assert (Ho : opened (trace (RunWithParsedFlags healthy_env
                 (final (RunWithParsedFlags healthy_env (sample_state []))))) = [0; 1])
    by by vm_compute.
  assert (Hc : closed (trace (RunWithParsedFlags healthy_env
                 (final (RunWithParsedFlags healthy_env (sample_state []))))) = [])
    by by vm_compute.
  rewrite Ho, Hc.
  split; [by vm_compute|]. split; [by vm_compute|]. split; [done|].
  split; [by vm_compute|]. split; [by vm_compute|]. split; [done|].
  intros H. specialize (H 0 (list_elem_of_here _ _)). by apply elem_of_nil in H.
Qed.

(** C10 (amended) on the sample run in which everything succeeds. *)
Lemma C10_witness :
  flagConfigs (cmd (sample_state [])) <> [] /\
  sync.done (cleanupGuard (cmd (sample_state []))) = false /\
  parseConfig healthy_env (flagConfigs (cmd (sample_state []))) = inl sample_config /\
  (forall k lc, cserver.Listeners sample_config !! k = Some lc ->
                NewListener healthy_env k lc = None) /\
  exists pre err post,
    trace (RunWithParsedFlags healthy_env (sample_state [])) =
      pre ++ (ListenerClose <$> [0; 1]) ++ CheckReturned "init-listeners" err :: post /\
    opened pre = [0; 1] /\ closed pre = [] /\ storage_calls pre = [] /\
    closed post = [].
Proof.
  split; [discriminate|]. split; [reflexivity|]. split; [reflexivity|].
  split; [reflexivity|].
  pose proof (C10_listeners_closed_when_check_returns healthy_env (sample_state [])
                sample_config) as W.
  cbv zeta in W.
  destruct W as (pre & err & post & W1 & W2 & W3 & W4 & _ & _ & W7 & _);
    [discriminate|reflexivity|reflexivity|reflexivity|].
  by exists pre, err, post.
Defined.

(** ** More of the command: the loop, the collaborators, the receiver, [Run] *)

Ltac obs2 :=
  unfold parse_calls, tls_calls, written, shutdowns, invoked, returned,
    check_events, opened, closed, storage_calls, validated;
  repeat first
    [ rewrite omap_app
    | rewrite omap_fmap_None by done
    | rewrite (omap_fmap_Some _ _ (fun x => x)) by done
    | rewrite list_fmap_id
    | progress cbn [omap list_omap app length] ];
  rewrite ?app_nil_r, ?app_nil_l.

(** ** Neither [-debug] nor [-skip] is read *)

Lemma fblind_ret {A : Type} (a : A) : flags_blind (mret a : M A).
Proof. by intros d k s. Qed.

Lemma fblind_emit e : flags_blind (emit e).
Proof. by intros d k s. Qed.

Lemma fblind_bind {A B : Type} (m : M A) (f : A -> M B) :
  flags_blind m -> (forall a, flags_blind (f a)) -> flags_blind (m ≫= f).
Proof.
  intros Hm Hf d k s. rewrite !run_bind, Hm. proj. by rewrite Hf.
Qed.

Lemma fblind_modify (g : State -> State) :
  (forall d k s, g (with_flags d k s) = with_flags d k (g s)) -> flags_blind (modify g).
Proof. intros Hg d k s. unfold modify. by rewrite Hg. Qed.

Lemma fblind_gets {A : Type} (f : State -> A) :
  (forall d k s, f (with_flags d k s) = f s) -> flags_blind (gets f).
Proof. intros Hf d k s. unfold gets. by rewrite Hf. Qed.

(** Reading the receiver is harmless when the rest looks at its other
    fields only. *)
Lemma fblind_gets_cmd {B : Type} (f : OperatorDiagnoseCommand -> M B) :
  (forall c, flags_blind (f c)) ->
  (forall d k c, f (mkCommand d k (flagConfigs c) (cleanupGuard c)) = f c) ->
  flags_blind (gets cmd ≫= f).
Proof.
  intros Hb Hf d k s. rewrite !bind_gets. cbn [with_flags set_cmd cmd].
  rewrite Hf. apply Hb.
Qed.

Lemma fblind_forM_ {A : Type} (xs : list A) (f : A -> M unit) :
  (forall x, flags_blind (f x)) -> flags_blind (forM_ xs f).
Proof.
  intros Hf. induction xs as [|x xs IH]; cbn [forM_]; [apply fblind_ret|].
  apply fblind_bind; [apply Hf|done].
Qed.

Lemma fblind_modify_session g : flags_blind (modify_session g).
Proof. by apply fblind_modify. Qed.

Lemma fblind_record sev ctx text : flags_blind (diagnose.record sev ctx text).
Proof. destruct ctx; [apply fblind_modify_session|apply fblind_ret]. Qed.

Lemma fblind_StartSpan ctx name : flags_blind (diagnose.StartSpan ctx name).
Proof.
  apply fblind_bind; [by apply fblind_gets|]. intros spans.
  apply fblind_bind; [by apply fblind_modify|]. intros _. apply fblind_ret.
Qed.

Lemma fblind_TestSkipping skipSet ctx name checkFn :
  (forall c, flags_blind (checkFn c)) -> flags_blind (diagnose.TestSkipping skipSet ctx name checkFn).
Proof.
  intros Hfn. unfold diagnose.TestSkipping. destruct (decide (name ∈ skipSet)).
  - apply fblind_bind; [apply fblind_StartSpan|]. intros [ctx' span].
    repeat (apply fblind_bind; [apply fblind_modify_session|]; intros _). apply fblind_ret.
  - apply fblind_bind; [apply fblind_StartSpan|]. intros [ctx' span].
    apply fblind_bind; [apply fblind_emit|]. intros _.
    apply fblind_bind; [apply Hfn|]. intros err.
    apply fblind_bind; [apply fblind_emit|]. intros _.
    destruct err as [e|].
    + apply fblind_bind; [apply fblind_modify_session|]. intros _.
      apply fblind_bind; [apply fblind_record|]. intros _.
      apply fblind_bind; [apply fblind_modify_session|]. intros _. apply fblind_ret.
    + apply fblind_bind; [apply fblind_modify_session|]. intros _. apply fblind_ret.
Qed.

Section FBlind.
Variable E : Env.

Lemma fblind_parseConfigurationCheck ctx : flags_blind (parseConfigurationCheck E ctx).
Proof.
  unfold parseConfigurationCheck. apply fblind_gets_cmd; [|done]. intros c.
  apply fblind_bind.
  { apply fblind_bind; [apply fblind_emit|]. intros _. apply fblind_ret. }
  intros [cfg|e].
  - apply fblind_bind; [by apply fblind_modify|]. intros _.
    apply fblind_bind; [|intros _; apply fblind_ret].
    apply fblind_forM_. intros x. apply fblind_record.
  - apply fblind_bind; [by apply fblind_modify|]. intros _. apply fblind_ret.
Qed.

Lemma fblind_bindListeners stanzas : forall i lns, flags_blind (bindListeners E i stanzas lns).
Proof.
  induction stanzas as [|lc rest IH]; intros i lns; cbn [bindListeners]; [apply fblind_ret|].
  destruct (NewListener E i lc); [apply fblind_ret|].
  apply fblind_bind; [apply fblind_emit|]. intros _. apply IH.
Qed.

Lemma fblind_listenerStep ctx ln san : flags_blind (listenerStep E ctx ln san).
Proof.
  unfold listenerStep. destruct (cserver.TLSDisable _).
  - apply fblind_bind; [apply fblind_record|]. intros _. apply fblind_ret.
  - apply fblind_bind.
    { destruct (cserver.TLSDisableClientCerts _); [apply fblind_record|apply fblind_ret]. }
    intros _. apply fblind_bind.
    { apply fblind_bind; [apply fblind_emit|]. intros _. apply fblind_ret. }
    intros [e|]; apply fblind_ret.
Qed.

Lemma fblind_forListeners ctx lns : forall san, flags_blind (forListeners E ctx lns san).
Proof.
  induction lns as [|ln lns IH]; intros san; cbn [forListeners]; [apply fblind_ret|].
  apply fblind_bind; [apply fblind_listenerStep|].
  intros [san'|e]; [apply IH|apply fblind_ret].
Qed.

Lemma fblind_cleanupGuard_Do f : flags_blind f -> flags_blind (cleanupGuard_Do f).
Proof.
  intros Hf. unfold cleanupGuard_Do. apply fblind_gets_cmd; [|done]. intros c.
  destruct (sync.done (cleanupGuard c)); [apply fblind_ret|].
  apply fblind_bind; [done|]. intros _. by apply fblind_modify.
Qed.

Lemma fblind_initListenersCheck cfg dc ctx : flags_blind (initListenersCheck E cfg dc ctx).
Proof.
  unfold initListenersCheck, InitListeners.
  apply fblind_bind; [apply fblind_bindListeners|]. intros [lns [e|]]; [apply fblind_ret|].
  unfold defer. apply fblind_bind.
  { apply fblind_bind; [apply fblind_forListeners|].
    intros [e|san]; [apply fblind_ret|].
    apply fblind_bind; [apply fblind_emit|]. intros _. apply fblind_ret. }
  intros r. apply fblind_bind; [|intros _; apply fblind_ret].
  apply fblind_cleanupGuard_Do. apply fblind_forM_. intros ln. apply fblind_emit.
Qed.

Lemma fblind_runChecks ctx : flags_blind (runChecks E ctx).
Proof.
  unfold runChecks.
  apply fblind_bind; [apply fblind_record|]. intros _.
  apply fblind_bind; [apply fblind_emit|]. intros _.
  apply fblind_bind; [by apply fblind_modify|]. intros _.
  apply fblind_bind.
  { apply fblind_TestSkipping. apply fblind_parseConfigurationCheck. }
  intros [e|]; [apply fblind_ret|].
  apply fblind_bind; [by apply fblind_gets|]. intros [cfg|]; [|apply fblind_ret].
  apply fblind_bind.
  { apply fblind_TestSkipping. apply fblind_initListenersCheck. }
  intros [e|]; [apply fblind_ret|].
  apply fblind_bind.
  { apply fblind_TestSkipping. intros c.
    apply fblind_bind; [apply fblind_emit|]. intros _. apply fblind_ret. }
  intros [e|]; apply fblind_ret.
Qed.

(** The run reads neither [c.flagDebug] nor [c.flagSkips]. *)
Lemma flags_not_read : flags_blind (RunWithParsedFlags E).
Proof.
  unfold RunWithParsedFlags. apply fblind_gets_cmd; [|done]. intros c.
  destruct (decide _).
  { apply fblind_bind; [apply fblind_emit|]. intros _. apply fblind_ret. }
  apply fblind_bind; [apply fblind_modify_session|]. intros _.
  apply fblind_bind; [apply fblind_StartSpan|]. intros [ctx span].
  unfold defer. apply fblind_bind; [apply fblind_runChecks|]. intros r.
  apply fblind_bind; [|intros _; apply fblind_ret].
  apply fblind_bind; [apply fblind_modify_session|]. intros _.
  apply fblind_bind; [|intros rep; apply fblind_emit].
  apply fblind_bind; [by apply fblind_gets|]. intros spans.
  apply fblind_bind; [by apply fblind_modify|]. intros _.
  apply fblind_bind; [apply fblind_emit|]. intros _. apply fblind_ret.
Qed.
End FBlind.

Section More.
Variable E : Env.

(** The loop over the listeners when every TLS configuration can be built. *)
Lemma forListeners_complete i (lns : list listenerutil.Listener) : forall san s,
  all_tls E lns ->
  let r := forListeners E (Some i) lns san s in
  result r = inr (san ++ filter tls_enabled lns) /\
  trace r = TLSConfigCall <$> (listenerutil.ln_Config <$> filter tls_enabled lns) /\
  cmd (final r) = cmd s /\ config (final r) = config s /\
  skeleton <$> session (final r) =
    alter (sk_add (concat (step_warnings <$> lns))) i (skeleton <$> session s).
Proof.
  induction lns as [|ln lns IH]; intros san s Hall; cbn [forListeners]; cbv zeta.
  - rewrite run_ret. proj. rewrite app_nil_r. repeat split; try done.
    by rewrite alter_sk_add_nil.
  - rewrite run_bind.
    destruct (listenerStep_run E i ln san s) as (Hc & Hg & Hs & Ht & Hr).
    cbv zeta in Hc, Hg, Hs, Ht, Hr. rewrite Hr, Ht. clear Hr Ht.
    set (s1 := final (listenerStep E (Some i) ln san s)) in *.
    assert (Hall' : all_tls E lns).
    { intros ln' Hin. apply Hall. by apply elem_of_cons; right. }
    destruct (cserver.TLSDisable (listenerutil.ln_Config ln)) eqn:Hdis.
    + destruct (IH san s1 Hall') as (Hr' & Ht' & Hc' & Hg' & Hs').
      cbv zeta in Hr', Ht', Hc', Hg', Hs'. proj.
      rewrite Hr', Ht', Hc', Hg', Hs', Hs, alter_sk_add_add.
      rewrite filter_cons_False by (unfold tls_enabled; by rewrite Hdis).
      by repeat split.
    + assert (Hen : tls_enabled ln) by done.
      rewrite (Hall ln (list_elem_of_here _ _) Hen).
      destruct (IH (san ++ [ln]) s1 Hall') as (Hr' & Ht' & Hc' & Hg' & Hs').
      cbv zeta in Hr', Ht', Hc', Hg', Hs'. proj.
      rewrite Hr', Ht', Hc', Hg', Hs', Hs, alter_sk_add_add.
      rewrite filter_cons_True by done. rewrite <- app_assoc.
      by repeat split.
Qed.

(** The loop over the listeners when the TLS configuration of [ln] is the
    first that cannot be built. *)
Lemma forListeners_failure i (pre post : list listenerutil.Listener) ln e0 : forall san s,
  all_tls E pre -> tls_enabled ln ->
  TLSConfig E (listenerutil.ln_Config ln) = Some e0 ->
  let r := forListeners E (Some i) (pre ++ ln :: post) san s in
  result r = inl ("error creating TLS Configuration out of config file: " +:+ e0) /\
  trace r = TLSConfigCall <$>
              (listenerutil.ln_Config <$> filter tls_enabled pre ++ [ln]) /\
  cmd (final r) = cmd s /\ config (final r) = config s /\
  skeleton <$> session (final r) =
    alter (sk_add (concat (step_warnings <$> pre ++ [ln]))) i (skeleton <$> session s).
Proof.
  induction pre as [|ln' pre IH]; intros san s Hall Hen Hfail;
    cbn [forListeners app]; cbv zeta.
  - rewrite run_bind.
    destruct (listenerStep_run E i ln san s) as (Hc & Hg & Hs & Ht & Hr).
    cbv zeta in Hc, Hg, Hs, Ht, Hr. rewrite Hr, Ht. clear Hr Ht.
    unfold tls_enabled in Hen. rewrite Hen, Hfail. rewrite run_ret. proj.
    rewrite Hc, Hg, Hs. cbn. rewrite !app_nil_r. by repeat split.
  - rewrite run_bind.
    destruct (listenerStep_run E i ln' san s) as (Hc & Hg & Hs & Ht & Hr).
    cbv zeta in Hc, Hg, Hs, Ht, Hr. rewrite Hr, Ht. clear Hr Ht.
    set (s1 := final (listenerStep E (Some i) ln' san s)) in *.
    assert (Hall' : all_tls E pre).
    { intros l Hin. apply Hall. by apply elem_of_cons; right. }
    destruct (cserver.TLSDisable (listenerutil.ln_Config ln')) eqn:Hdis.
    + destruct (IH san s1 Hall' Hen Hfail) as (Hr' & Ht' & Hc' & Hg' & Hs').
      cbv zeta in Hr', Ht', Hc', Hg', Hs'. proj.
      rewrite Hr', Ht', Hc', Hg', Hs', Hs, alter_sk_add_add.
      rewrite filter_cons_False by (unfold tls_enabled; by rewrite Hdis).
      by repeat split.
    + assert (Hen' : tls_enabled ln') by done.
      rewrite (Hall ln' (list_elem_of_here _ _) Hen').
      destruct (IH (san ++ [ln']) s1 Hall' Hen Hfail) as (Hr' & Ht' & Hc' & Hg' & Hs').
      cbv zeta in Hr', Ht', Hc', Hg', Hs'. proj.
      rewrite Hr', Ht', Hc', Hg', Hs', Hs, alter_sk_add_add.
      rewrite filter_cons_True by done.
      by repeat split.
Qed.

(** Binding when stanza [k] is the first that fails. *)
Lemma bindListeners_first_failure (stanzas : list cserver.ListenerConfig) k lc e :
  forall i lns s,
  stanzas !! k = Some lc -> NewListener E (i + k) lc = Some e ->
  (forall j lc', j < k -> stanzas !! j = Some lc' -> NewListener E (i + j) lc' = None) ->
  bindListeners E i stanzas lns s = (([], Some e), s, ListenerOpen <$> seq i k).
Proof.
  revert k. induction stanzas as [|lc0 rest IH]; intros k i lns s Hk Hfail Hbefore; [done|].
  cbn [bindListeners]. destruct k as [|k]; cbn in Hk.
  - injection Hk as ->. rewrite Nat.add_0_r in Hfail. by rewrite Hfail.
  - assert (H0 : NewListener E i lc0 = None).
    { rewrite <- (Nat.add_0_r i). apply (Hbefore 0 lc0); [lia|done]. }
    rewrite H0, bind_emit, (IH k (S i) _ s Hk).
    + done.
    + by rewrite Nat.add_succ_comm.
    + intros j lc' Hj Hlook. rewrite Nat.add_succ_comm. apply Hbefore; [lia|done].
Qed.

(** The "init-listeners" check function when a listener fails to bind. *)
Lemma initListenersCheck_bind_failure cfg dc ctx s k lc e :
  cserver.Listeners cfg !! k = Some lc -> NewListener E k lc = Some e ->
  (forall j lc', j < k -> cserver.Listeners cfg !! j = Some lc' -> NewListener E j lc' = None) ->
  initListenersCheck E cfg dc ctx s = (Some e, s, ListenerOpen <$> seq 0 k).
Proof.
  intros Hk Hfail Hbefore. unfold initListenersCheck, InitListeners.
  rewrite run_bind, (bindListeners_first_failure _ k lc e 0 [] s Hk Hfail Hbefore).
  proj. cbn beta iota. rewrite run_ret. proj. by rewrite app_nil_r.
Qed.

(** The "init-listeners" check function when every listener binds. *)
Lemma initListenersCheck_bound cfg dc i s :
  all_bind E cfg ->
  let lns := bound 0 (cserver.Listeners cfg) in
  let r1 := forListeners E (Some i) lns [] s in
  let r2 := match result r1 with
            | inl e => mret (Some e)
            | inr sanitizedListeners => diagnose_ListenerChecks E sanitizedListeners
            end (final r1) in
  let r3 := cleanupGuard_Do (listenerCloseFunc lns) (final r2) in
  initListenersCheck E cfg dc (Some i) s =
  (result r2, final r3,
   (ListenerOpen <$> seq 0 (length (cserver.Listeners cfg))) ++
   trace r1 ++ trace r2 ++ trace r3).
Proof.
  intros Hall. cbv zeta. unfold initListenersCheck, InitListeners. rewrite run_bind.
  destruct (bindListeners_run E (cserver.Listeners cfg) 0 [] s)
    as (Hf & [(Hr & Ht & _) | (k & lc & e & Hk & Hfail & _)]).
  2:{ cbn in Hfail. rewrite (Hall k lc Hk) in Hfail. done. }
  unfold error in *. rewrite Hr, Ht, Hf. cbn beta iota. rewrite app_nil_l.
  unfold defer. rewrite !run_bind, run_ret. proj. by rewrite app_nil_r, <- !app_assoc.
Qed.

Lemma ListenerChecks_run lns s :
  diagnose_ListenerChecks E lns s = (ListenerChecks E lns, s, [ListenerChecksCall lns]).
Proof. unfold diagnose_ListenerChecks. by rewrite bind_emit, run_ret. Qed.

Lemma close_run cfg s :
  cleanupGuard_Do (listenerCloseFunc (bound 0 (cserver.Listeners cfg))) s =
  (tt, if sync.done (cleanupGuard (cmd s)) then s else release s,
   if sync.done (cleanupGuard (cmd s)) then []
   else ListenerClose <$> seq 0 (length (cserver.Listeners cfg))).
Proof.
  destruct (sync.done (cleanupGuard (cmd s))) eqn:Hd.
  - by apply cleanupGuard_Do_released.
  - rewrite (cleanupGuard_Do_first _ s Hd), listenerCloseFunc_run. proj.
    by rewrite bound_handles.
Qed.

Lemma bound_config (stanzas : list cserver.ListenerConfig) ln : forall i,
  ln ∈ bound i stanzas -> listenerutil.ln_Config ln ∈ stanzas.
Proof.
  unfold bound. induction stanzas as [|lc rest IH]; intros i Hin; cbn in Hin.
  - by apply elem_of_nil in Hin.
  - apply elem_of_cons in Hin as [->|Hin]; cbn.
    + by apply elem_of_cons; left.
    + apply elem_of_cons; right. by apply (IH (S i)).
Qed.

Lemma listener_check_result cfg dc i s :
  all_bind E cfg ->
  all_tls E (bound 0 (cserver.Listeners cfg)) ->
  result (initListenersCheck E cfg dc (Some i) s) = ListenerChecks E (sanitized cfg).
Proof.
  intros Hbind Htls. rewrite (initListenersCheck_bound cfg dc i s Hbind). cbv zeta. proj.
  destruct (forListeners_complete i (bound 0 (cserver.Listeners cfg)) [] s Htls) as (Hr & _).
  cbv zeta in Hr. by rewrite Hr, ListenerChecks_run.
Qed.

(** X: when every listener binds and every TLS configuration can be built,
    the check function builds the TLS configuration of exactly the listeners
    that serve TLS, in configuration order, then hands exactly those
    listeners, in that order, to the structural validation, once, and returns
    what the validation returns; the trace is the binds, these calls and (on
    a fresh guard) the closes. *)
Theorem listener_check_validates_tls_listeners cfg dc i s :
  all_bind E cfg ->
  all_tls E (bound 0 (cserver.Listeners cfg)) ->
  let r := initListenersCheck E cfg dc (Some i) s in
  let hs := seq 0 (length (cserver.Listeners cfg)) in
  result r = ListenerChecks E (sanitized cfg) /\
  trace r =
    (ListenerOpen <$> hs) ++
    (TLSConfigCall <$> (listenerutil.ln_Config <$> sanitized cfg)) ++
    [ListenerChecksCall (sanitized cfg)] ++
    (if sync.done (cleanupGuard (cmd s)) then [] else ListenerClose <$> hs).
Proof.
  intros Hbind Htls. cbv zeta. rewrite (initListenersCheck_bound cfg dc i s Hbind). cbv zeta.
  destruct (forListeners_complete i (bound 0 (cserver.Listeners cfg)) [] s Htls)
    as (Hr & Ht & Hc & _).
  cbv zeta in Hr, Ht, Hc. rewrite Hr, Ht, app_nil_l.
  rewrite ListenerChecks_run. proj. rewrite close_run, Hc. proj. done.
Qed.

(** X: when every listener binds and [ln] is the first listener whose TLS
    configuration cannot be built, the check function stops there: it returns
    the wrapped error, it has called the TLS builder for the TLS listeners up
    to [ln] only, the structural validation is not called, and the listeners
    are closed all the same. *)
Theorem listener_check_stops_at_first_tls_failure cfg dc i s pre ln post e0 :
  all_bind E cfg ->
  bound 0 (cserver.Listeners cfg) = pre ++ ln :: post ->
  all_tls E pre -> tls_enabled ln ->
  TLSConfig E (listenerutil.ln_Config ln) = Some e0 ->
  let r := initListenersCheck E cfg dc (Some i) s in
  let hs := seq 0 (length (cserver.Listeners cfg)) in
  result r = Some ("error creating TLS Configuration out of config file: " +:+ e0) /\
  trace r =
    (ListenerOpen <$> hs) ++
    (TLSConfigCall <$> (listenerutil.ln_Config <$> (filter tls_enabled pre ++ [ln]))) ++
    (if sync.done (cleanupGuard (cmd s)) then [] else ListenerClose <$> hs).
Proof.
  intros Hbind Hsplit Htls Hen Hfail. cbv zeta.
  rewrite (initListenersCheck_bound cfg dc i s Hbind). cbv zeta.
  pose proof (forListeners_failure i pre post ln e0 [] s Htls Hen Hfail) as H.
  cbv zeta in H. rewrite <- Hsplit in H. destruct H as (Hr & Ht & Hc & _).
  rewrite Hr, Ht. rewrite run_ret. proj.
  rewrite close_run, Hc. proj. done.
Qed.

(** X: the messages the check function records.  When every listener binds
    and every TLS configuration can be built, the span of the check gets, in
    configuration order, one warning for each listener with TLS disabled, one
    for each listener that serves TLS without requiring client certificates
    and nothing for the others; no other span changes. *)
Theorem listener_check_warnings cfg dc i s sp :
  all_bind E cfg ->
  all_tls E (bound 0 (cserver.Listeners cfg)) ->
  session s !! i = Some sp ->
  let r := initListenersCheck E cfg dc (Some i) s in
  (exists sp', session (final r) !! i = Some sp' /\
     name sp' = name sp /\
     messages sp' =
       messages sp ++ concat (step_warnings <$> bound 0 (cserver.Listeners cfg))) /\
  (forall j, j <> i -> skeleton <$> session (final r) !! j = skeleton <$> session s !! j).
Proof.
  intros Hbind Htls Hsp. cbv zeta.
  rewrite (initListenersCheck_bound cfg dc i s Hbind). cbv zeta.
  destruct (forListeners_complete i (bound 0 (cserver.Listeners cfg)) [] s Htls)
    as (Hr & _ & Hc & _ & Hs).
  cbv zeta in Hr, Hc, Hs. rewrite Hr, ListenerChecks_run. proj.
  rewrite close_run. proj.
  set (s1 := final (forListeners E (Some i) (bound 0 (cserver.Listeners cfg)) [] s)) in *.
  assert (Hsess : session (if sync.done (cleanupGuard (cmd s1)) then s1 else release s1)
                  = session s1) by by destruct (sync.done _).
  rewrite Hsess. split.
  - assert (Hl : (skeleton <$> session s1) !! i =
                 Some (sk_add (concat (step_warnings <$> bound 0 (cserver.Listeners cfg)))
                              (skeleton sp))).
    { by rewrite Hs, list_lookup_alter_eq, list_lookup_fmap, Hsp. }
    destruct (messages_of_skeleton _ _ _ Hl) as (sp' & Hsp' & Hn & _ & Hm).
    by exists sp'.
  - intros j Hj. rewrite <- !list_lookup_fmap, Hs. by rewrite list_lookup_alter_ne.
Qed.

(** The loop over [pre ++ rest], when every TLS configuration of [pre] can
    be built: the loop over [pre], then the loop over [rest] on what the
    first has gathered. *)
Lemma forListeners_app i (pre rest : list listenerutil.Listener) : forall san s,
  all_tls E pre ->
  let r1 := forListeners E (Some i) pre san s in
  let r2 := forListeners E (Some i) rest (san ++ filter tls_enabled pre) (final r1) in
  forListeners E (Some i) (pre ++ rest) san s = (result r2, final r2, trace r1 ++ trace r2).
Proof.
  induction pre as [|ln pre IH]; intros san s Hall; cbn [forListeners app]; cbv zeta.
  - rewrite run_ret. proj. rewrite filter_nil, app_nil_r. apply run_eta.
  - rewrite !run_bind.
    destruct (listenerStep_run E i ln san s) as (_ & _ & _ & _ & Hr). cbv zeta in Hr.
    assert (Hall' : all_tls E pre).
    { intros ln' Hin. apply Hall. by apply elem_of_cons; right. }
    set (r0 := listenerStep E (Some i) ln san s) in *. rewrite Hr.
    destruct (cserver.TLSDisable (listenerutil.ln_Config ln)) eqn:Hdis.
    + rewrite (IH san (final r0) Hall'). proj.
      rewrite filter_cons_False by (unfold tls_enabled; by rewrite Hdis).
      by rewrite app_assoc.
    + assert (Hen : tls_enabled ln) by done.
      rewrite (Hall ln (list_elem_of_here _ _) Hen).
      rewrite (IH (san ++ [ln]) (final r0) Hall'). proj.
      rewrite filter_cons_True by done.
      by rewrite <- (app_assoc san [ln]), (app_assoc (trace r0)).
Qed.

(** One pass of the loop for a listener that has TLS disabled. *)
Lemma listenerStep_disabled i ln san s :
  cserver.TLSDisable (listenerutil.ln_Config ln) = true ->
  listenerStep E (Some i) ln san s =
  (Continue san,
   set_session
     (alter (diagnose.add_message (warning "TLS is disabled in a Listener config stanza."))
            i (session s)) s,
   []).
Proof. intros Hdis. unfold listenerStep. by rewrite Hdis, Warn_eq, bind_modify, run_ret. Qed.

(** The messages the loop records are the warnings of the listeners it has
    passed through: all of them, or those up to the first whose TLS
    configuration cannot be built. *)
Lemma forListeners_messages i (lns : list listenerutil.Listener) : forall san s,
  exists m, m <= length lns /\
    (forall j, j <= length lns -> all_tls E (take j lns) -> j <= m) /\
    skeleton <$> session (final (forListeners E (Some i) lns san s)) =
      alter (sk_add (concat (step_warnings <$> take m lns))) i (skeleton <$> session s).
Proof.
  induction lns as [|ln lns IH]; intros san s; cbn [forListeners].
  - exists 0. split; [done|]. split; [by intros j Hj _|].
    rewrite run_ret. proj. cbn. by rewrite alter_sk_add_nil.
  - rewrite run_bind.
    destruct (listenerStep_run E i ln san s) as (_ & _ & Hs & _ & Hr). cbv zeta in Hs, Hr.
    set (r0 := listenerStep E (Some i) ln san s) in *. rewrite Hr.
    assert (Hgo : forall san', exists m, m <= length (ln :: lns) /\
      (forall j, j <= length (ln :: lns) -> all_tls E (take j (ln :: lns)) -> j <= m) /\
      skeleton <$> session (final (forListeners E (Some i) lns san' (final r0))) =
        alter (sk_add (concat (step_warnings <$> take m (ln :: lns)))) i
              (skeleton <$> session s)).
    { intros san'. destruct (IH san' (final r0)) as (m & Hm & Hj & Hsk).
      exists (S m). split; [cbn; lia|]. split.
      - intros [|j] Hle Htls; [lia|]. cbn in Hle, Htls.
        assert (j <= m); [|lia]. apply Hj; [lia|].
        intros ln' Hin. apply Htls. by apply elem_of_cons; right.
      - rewrite Hsk, Hs, alter_sk_add_add. done. }
    destruct (cserver.TLSDisable (listenerutil.ln_Config ln)) eqn:Hdis.
    + proj. apply Hgo.
    + destruct (TLSConfig E (listenerutil.ln_Config ln)) as [e0|] eqn:Hcfg.
      * exists 1. split; [cbn; lia|]. split.
        -- intros [|j] Hle Htls; [lia|]. cbn in Htls.
           assert (Hen : tls_enabled ln) by done.
           rewrite (Htls ln (list_elem_of_here _ _) Hen) in Hcfg. done.
        -- rewrite run_ret. proj. rewrite Hs. cbn. by rewrite app_nil_r.
      * proj. apply Hgo.
Qed.

(** C7 (amended): a listener whose stanza disables TLS, at position [k] of
    the configuration.  When the TLS configuration of every listener before
    it can be built, the loop over the listeners is the loop over those
    before it, then one message, the warning, appended to the span of the
    check, with no event and with the sanitized listeners unchanged, then the
    loop over those after it.  When moreover every listener binds, the span
    of the check holds after the check function what it held before, the
    warnings of the listeners before [k], this one warning and warnings of
    listeners after [k], and no other span has changed.  In every case the
    listener is in no list handed to the structural validation, it is among
    the listeners [InitListeners] hands back, and it is closed when every
    listener binds and the cleanup guard was not released before. *)
Theorem C7_tls_disabled_listener cfg dc i s k lc :
  cserver.Listeners cfg !! k = Some lc ->
  cserver.TLSDisable lc = true ->
  let ln := listenerutil.mkListener k lc in
  let lns := bound 0 (cserver.Listeners cfg) in
  let w := warning "TLS is disabled in a Listener config stanza." in
  let r := initListenersCheck E cfg dc (Some i) s in
  lns = take k lns ++ ln :: drop (S k) lns /\
  (all_tls E (take k lns) ->
   forall san s1,
     let r1 := forListeners E (Some i) (take k lns) san s1 in
     let s2 := set_session (alter (diagnose.add_message w) i (session (final r1)))
                           (final r1) in
     let r3 := forListeners E (Some i) (drop (S k) lns)
                 (san ++ filter tls_enabled (take k lns)) s2 in
     forListeners E (Some i) lns san s1 = (result r3, final r3, trace r1 ++ trace r3)) /\
  (all_bind E cfg -> all_tls E (take k lns) ->
   forall sp, session s !! i = Some sp ->
     (exists sp' m,
        let later := concat (step_warnings <$> take m (drop (S k) lns)) in
        session (final r) !! i = Some sp' /\
        messages sp' =
          messages sp ++ concat (step_warnings <$> take k lns) ++ [w] ++ later /\
        Forall is_warning (concat (step_warnings <$> take k lns) ++ [w] ++ later)) /\
     (forall j, j <> i ->
        skeleton <$> session (final r) !! j = skeleton <$> session s !! j)) /\
  (forall l, l ∈ validated (trace r) -> ln ∉ l) /\
  ln ∈ lns /\
  (all_bind E cfg -> sync.done (cleanupGuard (cmd s)) = false -> k ∈ closed (trace r)).
Proof.
  intros Hk Hdis. cbv zeta.
  set (lns := bound 0 (cserver.Listeners cfg)).
  set (ln := listenerutil.mkListener k lc).
  assert (Hlook : lns !! k = Some ln) by exact (bound_lookup _ k lc 0 Hk).
  assert (Hsplit : lns = take k lns ++ ln :: drop (S k) lns)
    by by rewrite (take_drop_middle _ _ _ Hlook).
  assert (Hdis' : cserver.TLSDisable (listenerutil.ln_Config ln) = true) by done.
  split; [done|]. split.
  { intros Htls san s1.
    pose proof (forListeners_app i (take k lns) (ln :: drop (S k) lns) san s1 Htls) as H.
    cbv zeta in H. rewrite <- Hsplit in H. rewrite H. clear H.
    cbn [forListeners]. rewrite !run_bind, (listenerStep_disabled i ln _ _ Hdis'). proj.
    by rewrite app_nil_l. }
  split.
  { intros Hbind Htls sp Hsp.
    rewrite (initListenersCheck_bound cfg dc i s Hbind). cbv zeta. proj. fold lns.
    set (r1 := forListeners E (Some i) lns [] s).
    assert (Hf2 : final (match result r1 with
                         | inl e => mret (Some e)
                         | inr sanitizedListeners => diagnose_ListenerChecks E sanitizedListeners
                         end (final r1)) = final r1).
    { destruct (result r1); [by rewrite run_ret|by rewrite ListenerChecks_run]. }
    pose proof (close_run cfg (final r1)) as Hclose. fold lns in Hclose.
    rewrite Hf2, Hclose. proj. clear Hclose.
    assert (Hsess : session (if sync.done (cleanupGuard (cmd (final r1)))
                             then final r1 else release (final r1))
                    = session (final r1)) by by destruct (sync.done _).
    rewrite Hsess.
    destruct (forListeners_messages i lns [] s) as (m & Hm & Hj & Hsk). fold r1 in Hsk.
    assert (Hlt : k < length lns) by by apply (lookup_lt_Some _ _ _ Hlook).
    assert (Hkm : S k <= m).
    { apply Hj; [lia|]. rewrite (take_S_r _ _ _ Hlook).
      intros l [Hin|Hin%list_elem_of_singleton]%elem_of_app Hen; [by apply Htls|].
      subst l. unfold tls_enabled in Hen. congruence. }
    assert (Htake : take m lns = take k lns ++ ln :: take (m - S k) (drop (S k) lns)).
    { rewrite Hsplit at 1. rewrite take_app_ge by (rewrite length_take; lia).
      rewrite length_take, Nat.min_l by lia.
      replace (m - k) with (S (m - S k)) by lia. done. }
    assert (Hadd : concat (step_warnings <$> take m lns) =
                   concat (step_warnings <$> take k lns) ++
                   [warning "TLS is disabled in a Listener config stanza."] ++
                   concat (step_warnings <$> take (m - S k) (drop (S k) lns))).
    { rewrite Htake, fmap_app, concat_app, fmap_cons, concat_cons.
      unfold step_warnings at 2. by rewrite Hdis'. }
    split.
    - assert (Hl : (skeleton <$> session (final r1)) !! i =
                   Some (sk_add (concat (step_warnings <$> take m lns)) (skeleton sp))).
      { by rewrite Hsk, list_lookup_alter_eq, list_lookup_fmap, Hsp. }
      destruct (messages_of_skeleton _ _ _ Hl) as (sp' & Hsp' & _ & _ & Hmsg).
      exists sp', (m - S k). cbv zeta. split; [done|]. split.
      + by rewrite Hmsg, <- Hadd.
      + rewrite <- Hadd. apply Forall_concat, Forall_fmap, Forall_forall.
        intros l _. apply step_warnings_are_warnings.
    - intros j Hne. rewrite <- !list_lookup_fmap, Hsk. by rewrite list_lookup_alter_ne. }
  assert (Hin : ln ∈ lns) by (apply list_elem_of_lookup; by exists k).
  destruct (initListenersCheck_run E cfg dc i s)
    as (_ & _ & [(k' & lc' & e & Hk' & Hfail & _ & Ht & _) | (_ & _ & _ & lcs & vs & Hvs & Ht)]);
    cbv zeta in *; rewrite Ht.
  - split; [|split; [done|]].
    + intros l Hl. revert Hl. obs2. by intros ?%elem_of_nil.
    + intros Hall _. rewrite (Hall k' lc' Hk') in Hfail. done.
  - split; [|split; [done|]].
    + intros l Hl Hln.
      assert (Hl' : l ∈ vs).
      { revert Hl. destruct (sync.done (cleanupGuard (cmd s))); by obs2. }
      destruct Hvs as [->| ->]; [by apply elem_of_nil in Hl'|].
      apply list_elem_of_singleton in Hl' as ->.
      apply list_elem_of_filter in Hln as [Hen _].
      unfold tls_enabled in Hen. congruence.
    + intros _ Hd. rewrite Hd. obs2.
      apply elem_of_seq. pose proof (lookup_lt_Some _ _ _ Hk). lia.
Qed.

(** The check function returns no error exactly when every listener binds,
    every TLS configuration can be built and the structural validation finds
    nothing. *)
Lemma listener_check_passes_iff cfg dc i s :
  result (initListenersCheck E cfg dc (Some i) s) = None <->
  all_bind E cfg /\ all_tls E (bound 0 (cserver.Listeners cfg)) /\
  ListenerChecks E (sanitized cfg) = None.
Proof.
  split.
  - intros Hres.
    destruct (initListenersCheck_run E cfg dc i s)
      as (_ & _ & [(k & lc & e & _ & _ & Hr & _) | (Hall & Htls & _)]);
      cbv zeta in *; [congruence|].
    assert (Htls' : all_tls E (bound 0 (cserver.Listeners cfg))).
    { intros ln Hin Hen.
      destruct (TLSConfig E (listenerutil.ln_Config ln)) as [e0|] eqn:Hcfg; [|done].
      destruct (Htls _ e0 (bound_config _ _ _ Hin) Hen Hcfg Hres). }
    split; [done|]. split; [done|].
    by rewrite <- (listener_check_result cfg dc i s Hall Htls').
  - intros (Hall & Htls & Hv).
    by rewrite (listener_check_result cfg dc i s Hall Htls).
Qed.

(** What is left of the receiver after the check function. *)
Lemma initListenersCheck_cmd cfg dc i s :
  let r := initListenersCheck E cfg dc (Some i) s in
  (~ all_bind E cfg /\ cmd (final r) = cmd s) \/
  (all_bind E cfg /\
   cmd (final r) = if sync.done (cleanupGuard (cmd s)) then cmd s else cmd (release s)).
Proof.
  cbv zeta.
  destruct (initListenersCheck_run E cfg dc i s)
    as (_ & _ & [(k & lc & e & Hk & Hfail & _ & _ & Hf) | (Hall & _)]); cbv zeta in *.
  - left. split; [|by rewrite Hf]. intros Hall. rewrite (Hall k lc Hk) in Hfail. done.
  - right. split; [done|]. rewrite (initListenersCheck_bound cfg dc i s Hall). cbv zeta. proj.
    destruct (forListeners_run E i (bound 0 (cserver.Listeners cfg)) [] s) as (Hc & _).
    cbv zeta in Hc.
    set (r1 := forListeners E (Some i) (bound 0 (cserver.Listeners cfg)) [] s) in *.
    assert (Hf2 : final (match result r1 with
                         | inl e => mret (Some e)
                         | inr sanitizedListeners => diagnose_ListenerChecks E sanitizedListeners
                         end (final r1)) = final r1).
    { destruct (result r1); [by rewrite run_ret|by rewrite ListenerChecks_run]. }
    rewrite Hf2, close_run, Hc. proj.
    destruct (sync.done (cleanupGuard (cmd s))); [done|].
    unfold release. cbn [set_cmd cmd]. by rewrite Hc.
Qed.

(** The exit code of a run in which the configuration parses. *)
Lemma exit_code_after_parse s cfg :
  flagConfigs (cmd s) <> [] ->
  parseConfig E (flagConfigs (cmd s)) = inl cfg ->
  exists passes : bool,
    (passes = true <->
     all_bind E cfg /\ all_tls E (bound 0 (cserver.Listeners cfg)) /\
     ListenerChecks E (sanitized cfg) = None) /\
    result (RunWithParsedFlags E s) =
      if passes then exit_of (setupStorage E cfg) else 1%Z.
Proof.
  intros Hne Hp.
  destruct (returned_cases E s Hne) as (_ & [(e & Hp' & _) | (cfg' & s2 & Hp' & _ & Hc)]);
    [congruence|].
  assert (cfg' = cfg) as -> by congruence. cbv zeta in Hc.
  pose proof (listener_check_passes_iff cfg (disableClustering_of cfg) 2 s2) as Hiff.
  destruct Hc as [(e & Hr2 & Hr & _) | (Hr2 & Hr & _)].
  - exists false. split; [|done]. split; [done|].
    intros Hpass%Hiff. congruence.
  - exists true. split; [|done]. split; [intros _; by apply Hiff|done].
Qed.

(** X: the command returns 0 exactly when the configuration parses, every
    listener binds, the TLS configuration of every listener that serves TLS
    can be built, the structural validation of those listeners finds nothing
    and the storage backend can be set up. *)
Theorem exit_0_iff_everything_succeeds s :
  flagConfigs (cmd s) <> [] ->
  (result (RunWithParsedFlags E s) = 0%Z <->
   exists cfg,
     parseConfig E (flagConfigs (cmd s)) = inl cfg /\
     all_bind E cfg /\
     all_tls E (bound 0 (cserver.Listeners cfg)) /\
     ListenerChecks E (sanitized cfg) = None /\
     setupStorage E cfg = None).
Proof.
  intros Hne.
  destruct (parseConfig E (flagConfigs (cmd s))) as [cfg|e] eqn:Hp.
  - destruct (exit_code_after_parse s cfg Hne Hp) as (passes & Hpass & ->).
    destruct passes.
    + destruct (proj1 Hpass eq_refl) as (Hb & Ht & Hv). split.
      * intros Hst. exists cfg. repeat split; try done.
        by destruct (setupStorage E cfg).
      * intros (cfg' & Hcfg & _ & _ & _ & Hst).
        assert (cfg' = cfg) as -> by congruence. by rewrite Hst.
    + split; [done|]. intros (cfg' & Hcfg & Hb & Ht & Hv & _).
      assert (cfg' = cfg) as -> by congruence.
      assert (false = true) by by apply Hpass. done.
  - destruct (returned_cases E s Hne)
      as (_ & [(e' & _ & Hr & _) | (cfg & s2 & Hp' & _)]); [|congruence].
    rewrite Hr. split; [done|]. intros (cfg & Hcfg & _). congruence.
Qed.

(** X: what the collaborators see of a run.  The configuration loader is
    called once, with the paths of the command.  After a parse failure no
    listener is bound, no TLS configuration built, nothing validated and the
    storage factory not called.  After a successful parse the storage factory
    is called, once and with the parsed configuration, exactly when the
    listener check passes. *)
Theorem collaborator_calls s :
  flagConfigs (cmd s) <> [] ->
  let t := trace (RunWithParsedFlags E s) in
  parse_calls t = [flagConfigs (cmd s)] /\
  (forall e, parseConfig E (flagConfigs (cmd s)) = inr e ->
     opened t = [] /\ tls_calls t = [] /\ validated t = [] /\ storage_calls t = []) /\
  (forall cfg, parseConfig E (flagConfigs (cmd s)) = inl cfg ->
     (all_bind E cfg /\ all_tls E (bound 0 (cserver.Listeners cfg)) /\
      ListenerChecks E (sanitized cfg) = None -> storage_calls t = [cfg]) /\
     (~ (all_bind E cfg /\ all_tls E (bound 0 (cserver.Listeners cfg)) /\
         ListenerChecks E (sanitized cfg) = None) -> storage_calls t = [])).
Proof.
  intros Hne. cbv zeta.
  destruct (run_cases E s Hne) as (rep & body & Ht & _ & Hcases).
  cbv zeta in Ht, Hcases. rewrite Ht. clear Ht.
  destruct Hcases as [(e & Hp & _ & _ & -> & _) | (cfg & s2 & lw & Hp & _ & _ & _ & Hc)].
  { split; [done|]. split; [done|]. intros cfg Hcfg. congruence. }
  destruct (listeners_trace E cfg (disableClustering_of cfg) 2 s2)
    as (k & lcs & vs & cl & Ht2 & _ & _). cbv zeta in Ht2.
  pose proof (listener_check_passes_iff cfg (disableClustering_of cfg) 2 s2) as Hiff.
  destruct Hc as [(e & Hr2 & _ & -> & _) | (Hr2 & _ & -> & _)]; rewrite Ht2.
  - split; [by obs2|]. split; [intros e' He'; congruence|].
    intros cfg' Hcfg. assert (cfg' = cfg) as -> by congruence. split.
    + intros Hpass%Hiff. congruence.
    + intros _. by obs2.
  - split; [by obs2|]. split; [intros e' He'; congruence|].
    intros cfg' Hcfg. assert (cfg' = cfg) as -> by congruence. split.
    + intros _. by obs2.
    + intros Hnot. destruct Hnot. by apply Hiff.
Qed.

(** X: when listener [k] is the first that cannot be bound, the run is:
    the version line, the parse check, the binds of the listeners before [k],
    the return of the bind error, unchanged, and the report.  Nothing is
    closed, no TLS configuration is built, the storage factory is not called,
    the receiver is as before, and the exit code is 1. *)
Theorem run_with_bind_failure s cfg k lc e :
  flagConfigs (cmd s) <> [] ->
  parseConfig E (flagConfigs (cmd s)) = inl cfg ->
  cserver.Listeners cfg !! k = Some lc -> NewListener E k lc = Some e ->
  (forall j lc', j < k -> cserver.Listeners cfg !! j = Some lc' -> NewListener E j lc' = None) ->
  let r := RunWithParsedFlags E s in
  result r = 1%Z /\ cmd (final r) = cmd s /\
  exists rep,
    trace r =
      [UIOutput (FullVersionNumber E);
       CheckInvoked "Parse configuration"; ParseConfigCall (flagConfigs (cmd s));
       CheckReturned "Parse configuration" None;
       CheckInvoked "init-listeners"] ++
      (ListenerOpen <$> seq 0 k) ++
      [CheckReturned "init-listeners" (Some e);
       DiagShutdown; ReportWrite os_Stdout rep].
Proof.
  intros Hne Hp Hk Hfail Hbefore. cbv zeta.
  destruct (run_cases E s Hne) as (rep & body & Ht & _ & Hcases).
  cbv zeta in Ht, Hcases. rewrite Ht. clear Ht.
  destruct Hcases as [(e' & Hp' & _) | (cfg' & s2 & lw & Hp' & Hc2 & _ & Hcmd & Hc)];
    [congruence|].
  assert (cfg' = cfg) as -> by congruence.
  rewrite (initListenersCheck_bind_failure cfg _ (Some 2) s2 k lc e Hk Hfail Hbefore)
    in Hcmd, Hc.
  proj. destruct Hc as [(e' & Hr2 & Hr & -> & _) | (Hr2 & _)]; [|done].
  injection Hr2 as <-. split; [done|]. split; [by rewrite Hcmd|].
  exists rep. cbn [app]. by rewrite <- !app_assoc.
Qed.

(** X: a run changes nothing of the receiver but the cleanup guard, and the
    guard only from fresh to released; after a run that passed flag
    validation the guard is released exactly when it was released before or
    the configuration parsed and every listener was bound. *)
Theorem receiver_after_run s :
  let c' := cmd (final (RunWithParsedFlags E s)) in
  flagDebug c' = flagDebug (cmd s) /\
  flagSkips c' = flagSkips (cmd s) /\
  flagConfigs c' = flagConfigs (cmd s) /\
  (sync.done (cleanupGuard (cmd s)) = true -> sync.done (cleanupGuard c') = true) /\
  (flagConfigs (cmd s) <> [] ->
   (sync.done (cleanupGuard c') = true <->
    sync.done (cleanupGuard (cmd s)) = true \/
    exists cfg, parseConfig E (flagConfigs (cmd s)) = inl cfg /\ all_bind E cfg)).
Proof.
  cbv zeta. destruct (decide (flagConfigs (cmd s) = [])) as [Hnil|Hne].
  { rewrite (RunWithParsedFlags_noconfig E s Hnil). proj. by repeat split. }
  destruct (run_cases E s Hne) as (rep & body & _ & _ & Hcases). cbv zeta in Hcases.
  destruct Hcases as [(e & Hp & _ & -> & _) | (cfg & s2 & lw & Hp & Hc2 & _ & -> & _)].
  { do 4 (split; [done|]). intros _. split; [by left|].
    intros [Hd|(cfg & Hcfg & _)]; [done|congruence]. }
  destruct (initListenersCheck_cmd cfg (disableClustering_of cfg) 2 s2)
    as [(Hnb & ->) | (Hb & ->)]; rewrite Hc2.
  - do 4 (split; [done|]). intros _. split; [by left|].
    intros [Hd|(cfg' & Hcfg & Hb)]; [done|].
    assert (cfg' = cfg) as -> by congruence. done.
  - destruct (sync.done (cleanupGuard (cmd s))) eqn:Hd.
    + do 4 (split; [done|]). intros _. split; [by left|done].
    + unfold release. cbn [set_cmd cmd flagDebug flagSkips flagConfigs cleanupGuard sync.done].
      rewrite Hc2. do 3 (split; [done|]). split; [done|].
      intros _. split; [|done]. intros _. right. by exists cfg.
Qed.

Lemma guard_released_after_binding s cfg :
  flagConfigs (cmd s) <> [] ->
  parseConfig E (flagConfigs (cmd s)) = inl cfg ->
  all_bind E cfg ->
  let c' := cmd (final (RunWithParsedFlags E s)) in
  flagConfigs c' = flagConfigs (cmd s) /\ sync.done (cleanupGuard c') = true.
Proof.
  intros Hne Hp Hb. cbv zeta.
  destruct (run_cases E s Hne) as (rep & body & _ & _ & Hcases). cbv zeta in Hcases.
  destruct Hcases as [(e & Hp' & _) | (cfg' & s2 & lw & Hp' & Hc2 & _ & -> & _)];
    [congruence|].
  assert (cfg' = cfg) as -> by congruence.
  destruct (initListenersCheck_cmd cfg (disableClustering_of cfg) 2 s2)
    as [(Hnb & _) | (_ & ->)]; [done|]. rewrite Hc2.
  destruct (sync.done (cleanupGuard (cmd s))) eqn:Hd; [done|].
  unfold release. cbn [set_cmd cmd flagConfigs cleanupGuard sync.done]. by rewrite Hc2.
Qed.

(** X: the cleanup guard belongs to the command, not to the run.  When the
    configuration parses and every listener binds, a second run on the same
    command binds all listeners again and closes none of them. *)
Theorem second_run_leaves_listeners_open s cfg :
  flagConfigs (cmd s) <> [] ->
  parseConfig E (flagConfigs (cmd s)) = inl cfg ->
  all_bind E cfg ->
  let r1 := RunWithParsedFlags E s in
  let r2 := RunWithParsedFlags E (final r1) in
  opened (trace r2) = seq 0 (length (cserver.Listeners cfg)) /\
  closed (trace r2) = [].
Proof.
  intros Hne Hp Hb. cbv zeta.
  destruct (guard_released_after_binding s cfg Hne Hp Hb) as (Hcfgs & Hd).
  cbv zeta in Hcfgs, Hd.
  set (s' := final (RunWithParsedFlags E s)) in *.
  assert (Hne' : flagConfigs (cmd s') <> []) by by rewrite Hcfgs.
  destruct (run_cases E s' Hne') as (rep & body & Ht & _ & Hcases).
  cbv zeta in Ht, Hcases. rewrite Ht. clear Ht. rewrite Hcfgs in Hcases.
  destruct Hcases as [(e & Hp' & _) | (cfg' & s2 & lw & Hp' & Hc2 & _ & _ & Hc)];
    [congruence|].
  assert (cfg' = cfg) as -> by congruence.
  destruct (initListenersCheck_run E cfg (disableClustering_of cfg) 2 s2)
    as (_ & _ & [(k & lc & e & Hk & Hfail & _) | (_ & _ & _ & lcs & vs & _ & Ht2)]);
    cbv zeta in *.
  { rewrite (Hb k lc Hk) in Hfail. done. }
  rewrite Hc2, Hd in Ht2.
  destruct Hc as [(e & _ & _ & -> & _) | (_ & _ & -> & _)]; rewrite Ht2; by obs2.
Qed.

(** X: neither [-debug] nor [-skip] has any effect: replacing both values
    changes neither the exit code nor the trace of a run, hence not the
    report written either. *)
Theorem debug_and_skip_have_no_effect d k s :
  result (RunWithParsedFlags E (with_flags d k s)) = result (RunWithParsedFlags E s) /\
  trace (RunWithParsedFlags E (with_flags d k s)) = trace (RunWithParsedFlags E s) /\
  written (trace (RunWithParsedFlags E (with_flags d k s))) =
    written (trace (RunWithParsedFlags E s)).
Proof. by rewrite (flags_not_read E d k s). Qed.

(** X: [Run] writes a report exactly when the command line parses and names
    at least one configuration path.  Otherwise it exits 1 and all it does is
    one error message on the UI: no check is invoked, the span store, the
    local configuration and the cleanup guard are as before.  The exit code
    of [Run] is 0 or 1. *)
Theorem Run_reports_iff_flags_usable Parse args s pf err :
  Parse args (cmd s) = (pf, err) ->
  let r := Run E Parse args s in
  (written (trace r) = [] <-> err <> None \/ parsedConfigs pf = []) /\
  (err <> None \/ parsedConfigs pf = [] ->
     result r = 1%Z /\ (exists msg, trace r = [UIError msg]) /\
     session (final r) = session s /\ config (final r) = config s /\
     cleanupGuard (cmd (final r)) = cleanupGuard (cmd s)) /\
  (result r = 0%Z \/ result r = 1%Z).
Proof.
  intros HP. cbv zeta. unfold Run. rewrite bind_gets, HP, bind_modify.
  destruct err as [e|].
  { unfold UI_Error. rewrite bind_emit, run_ret. proj.
    split; [split; [by left|done]|]. split; [|by right].
    intros _. split; [done|]. split; [by exists e|done]. }
  destruct (decide (parsedConfigs pf = [])) as [Hnil|Hne].
  { rewrite (RunWithParsedFlags_noconfig E (set_flags pf s) Hnil). proj.
    split; [split; [by right|done]|]. split; [|by right].
    intros _. split; [done|]. split; [by eexists|done]. }
  split; [|split; [|apply exit_is_0_or_1]].
  - destruct (run_written E (set_flags pf s) Hne) as (rep & pre & Ht & Hw & _).
    cbv zeta in Ht. rewrite Ht. unfold written in *. rewrite omap_app, Hw.
    split; [done|]. by intros [?|?].
  - by intros [?|?].
Qed.

(** X: of the command line [Run] uses the configuration paths only: two
    flag parsers that agree on the paths and on the error give the same exit
    code and the same trace, whatever they make of [-skip] and [-debug]. *)
Theorem Run_reads_only_config_paths Parse1 Parse2 args s :
  parsedConfigs (Parse1 args (cmd s)).1 = parsedConfigs (Parse2 args (cmd s)).1 ->
  (Parse1 args (cmd s)).2 = (Parse2 args (cmd s)).2 ->
  result (Run E Parse1 args s) = result (Run E Parse2 args s) /\
  trace (Run E Parse1 args s) = trace (Run E Parse2 args s).
Proof.
  unfold Run. rewrite !bind_gets.
  destruct (Parse1 args (cmd s)) as [pf1 err1], (Parse2 args (cmd s)) as [pf2 err2].
  cbn [fst snd]. intros Hcfgs ->. rewrite !bind_modify.
  destruct err2 as [e|]; [done|].
  assert (Hs : set_flags pf1 s =
               with_flags (parsedDebug pf1) (parsedSkips pf1) (set_flags pf2 s)).
  { unfold set_flags, with_flags, set_cmd. cbn. by rewrite Hcfgs. }
  by rewrite Hs, (flags_not_read E).
Qed.
End More.

(** X: what [config.Validate] finds is recorded and nothing more: putting any
    other validation in the place of the environment's changes the exit code
    of no run. *)
Theorem validation_findings_do_not_change_exit E V s :
  result (RunWithParsedFlags (with_Validate V E) s) = result (RunWithParsedFlags E s).
Proof.
  destruct (decide (flagConfigs (cmd s) = [])) as [Hnil|Hne].
  { by rewrite !RunWithParsedFlags_noconfig. }
  destruct (parseConfig E (flagConfigs (cmd s))) as [cfg|e] eqn:Hp.
  - destruct (exit_code_after_parse E s cfg Hne Hp) as (b & Hb & ->).
    destruct (exit_code_after_parse (with_Validate V E) s cfg Hne Hp) as (b' & Hb' & ->).
    cbn [with_Validate setupStorage].
    assert (b' = b) as ->; [|done].
    destruct b, b'; try done.
    + apply Hb'. exact (proj1 Hb eq_refl).
    + symmetry. apply Hb. exact (proj1 Hb' eq_refl).
  - destruct (returned_cases E s Hne)
      as (_ & [(e1 & _ & -> & _) | (cfg & s2 & Hp' & _)]); [|congruence].
    destruct (returned_cases (with_Validate V E) s Hne)
      as (_ & [(e2 & _ & -> & _) | (cfg & s2 & Hp' & _)]); [done|].
    cbn [with_Validate parseConfig] in Hp'. congruence.
Qed.

(** ** The further properties on sample runs *)

Lemma healthy_all_bind : all_bind healthy_env sample_config.
Proof. intros k lc _. reflexivity. Defined.

Lemma healthy_all_tls lns : all_tls healthy_env lns.
Proof. intros ln _ _. reflexivity. Defined.

(** C7 (as stated) fails: the first listener of the sample configuration
    serves TLS and its TLS configuration cannot be built, the second has TLS
    disabled.  Both are bound, the loop returns at the first, and the second
    is never looked at: the check function records no message at all, and the
    report of the run holds the error of line 129 and the error the check
    function returned, and no warning. *)
Lemma C7_counterexample :
  let c := initListenersCheck tls_fails_env sample_config false (Some 0)
             (started (sample_state [])) in
  let r := RunWithParsedFlags tls_fails_env (sample_state []) in
  cserver.Listeners sample_config !! 1 = Some plain_stanza /\
  cserver.TLSDisable plain_stanza = true /\
  opened (trace c) = [0; 1] /\
  messages <$> session (final c) = [[]] /\
  opened (trace r) = [0; 1] /\
  exists rep,
    written (trace r) = [rep] /\
    concat (messages <$> tree rep) =
      [nope;
       mkMessage SevError
         ("error creating TLS Configuration out of config file: " +:+
          "open /etc/vault/tls.crt: no such file or directory")] /\
    forall sp, sp ∈ tree rep ->
               warning "TLS is disabled in a Listener config stanza." ∉ messages sp.
Proof.
  cbv zeta. split; [reflexivity|]. split; [reflexivity|].
  split; [by vm_compute|]. split; [by vm_compute|]. split; [by vm_compute|].
  eexists. split; [by vm_compute|]. split; [by vm_compute|].
  intros sp Hsp Hw. vm_compute in Hsp.
  repeat (apply elem_of_cons in Hsp as [->|Hsp]);
    [vm_compute in Hw; repeat (apply elem_of_cons in Hw as [Hw|Hw]; [discriminate Hw|]);
     by apply elem_of_nil in Hw ..|].
  by apply elem_of_nil in Hsp.
Qed.

(** C7 (amended) on the listener of the sample configuration that has TLS
    disabled, where everything succeeds: the span of the check gets the one
    warning, the listener is not validated, and it is closed. *)
Lemma C7_witness :
  cserver.Listeners sample_config !! 1 = Some plain_stanza /\
  cserver.TLSDisable plain_stanza = true /\
  (exists sp',
     session (final (initListenersCheck healthy_env sample_config false (Some 0)
                       (started (sample_state [])))) !! 0 = Some sp' /\
     messages sp' = [warning "TLS is disabled in a Listener config stanza."]) /\
  (forall l,
     l ∈ validated (trace (initListenersCheck healthy_env sample_config false (Some 0)
                             (started (sample_state [])))) ->
     listenerutil.mkListener 1 plain_stanza ∉ l) /\
  listenerutil.mkListener 1 plain_stanza ∈ bound 0 (cserver.Listeners sample_config) /\
  1 ∈ closed (trace (initListenersCheck healthy_env sample_config false (Some 0)
                       (started (sample_state [])))).
Proof.
  split; [reflexivity|]. split; [reflexivity|].
  pose proof (C7_tls_disabled_listener healthy_env sample_config false 0
                (started (sample_state [])) 1 plain_stanza eq_refl eq_refl) as W.
  cbv zeta in W. destruct W as (_ & _ & W1 & W2 & W3 & W4).
  destruct (W1 healthy_all_bind (healthy_all_tls _) _ eq_refl) as ((sp' & m & H1 & H2 & _) & _).
  split; [exists sp'; split; [exact H1|]; rewrite H2; by destruct m|].
  split; [exact W2|]. split; [exact W3|].
  exact (W4 healthy_all_bind eq_refl).
Defined.

(** Both sample listeners bind, the one that serves TLS gets its
    configuration and is the only one validated. *)
Lemma listener_check_validates_tls_listeners_witness :
  all_bind healthy_env sample_config /\
  all_tls healthy_env (bound 0 (cserver.Listeners sample_config)) /\
  trace (initListenersCheck healthy_env sample_config false (Some 0)
           (started (sample_state []))) =
    [ListenerOpen 0; ListenerOpen 1; TLSConfigCall tls_stanza;
     ListenerChecksCall [listenerutil.mkListener 0 tls_stanza];
     ListenerClose 0; ListenerClose 1].
Proof.
  split; [exact healthy_all_bind|]. split; [exact (healthy_all_tls _)|].
  pose proof (listener_check_validates_tls_listeners healthy_env sample_config false 0
                (started (sample_state [])) healthy_all_bind (healthy_all_tls _)) as W.
  cbv zeta in W. destruct W as (_ & W). exact W.
Defined.

(** The TLS configuration of the first sample listener cannot be built. *)
Lemma listener_check_stops_at_first_tls_failure_witness :
  all_bind tls_fails_env sample_config /\
  bound 0 (cserver.Listeners sample_config) =
    [] ++ listenerutil.mkListener 0 tls_stanza :: [listenerutil.mkListener 1 plain_stanza] /\
  all_tls tls_fails_env [] /\
  tls_enabled (listenerutil.mkListener 0 tls_stanza) /\
  TLSConfig tls_fails_env tls_stanza =
    Some "open /etc/vault/tls.crt: no such file or directory" /\
  result (initListenersCheck tls_fails_env sample_config false (Some 0)
            (started (sample_state []))) =
    Some ("error creating TLS Configuration out of config file: " +:+
          "open /etc/vault/tls.crt: no such file or directory").
Proof.
  assert (Hb : all_bind tls_fails_env sample_config) by (intros k lc _; reflexivity).
  assert (Ht : all_tls tls_fails_env []) by (intros ln Hin; by apply elem_of_nil in Hin).
  split; [exact Hb|]. split; [reflexivity|]. split; [exact Ht|].
  split; [reflexivity|]. split; [reflexivity|].
  pose proof (listener_check_stops_at_first_tls_failure tls_fails_env sample_config false 0
                (started (sample_state [])) [] (listenerutil.mkListener 0 tls_stanza)
                [listenerutil.mkListener 1 plain_stanza] _ Hb eq_refl Ht eq_refl eq_refl) as W.
  cbv zeta in W. destruct W as (W & _). exact W.
Defined.

(** The sample listener with TLS disabled yields the one warning of the
    check. *)
Lemma listener_check_warnings_witness :
  all_bind healthy_env sample_config /\
  all_tls healthy_env (bound 0 (cserver.Listeners sample_config)) /\
  session (started (sample_state [])) !! 0 =
    Some (mkSpan 0 "initialization" None st_ok [] false) /\
  exists sp',
    session (final (initListenersCheck healthy_env sample_config false (Some 0)
                      (started (sample_state [])))) !! 0 = Some sp' /\
    name sp' = "initialization" /\
    messages sp' = [warning "TLS is disabled in a Listener config stanza."].
Proof.
  split; [exact healthy_all_bind|]. split; [exact (healthy_all_tls _)|].
  split; [reflexivity|].
  pose proof (listener_check_warnings healthy_env sample_config false 0
                (started (sample_state [])) _ healthy_all_bind (healthy_all_tls _) eq_refl) as W.
  cbv zeta in W. destruct W as (W & _). exact W.
Defined.

(** The healthy sample run exits 0. *)
Lemma exit_0_iff_everything_succeeds_witness :
  flagConfigs (cmd (sample_state [])) <> [] /\
  result (RunWithParsedFlags healthy_env (sample_state [])) = 0%Z.
Proof.
  split; [discriminate|].
  apply (exit_0_iff_everything_succeeds healthy_env (sample_state [])); [discriminate|].
  exists sample_config. split; [reflexivity|]. split; [exact healthy_all_bind|].
  split; [exact (healthy_all_tls _)|]. split; reflexivity.
Defined.

(** The calls of the sample run in which the second listener cannot be
    bound. *)
Lemma collaborator_calls_witness :
  flagConfigs (cmd (sample_state [])) <> [] /\
  parse_calls (trace (RunWithParsedFlags second_bind_fails_env (sample_state []))) =
    [["/etc/vault/config.hcl"]] /\
  storage_calls (trace (RunWithParsedFlags second_bind_fails_env (sample_state []))) = [].
Proof.
  split; [discriminate|].
  pose proof (collaborator_calls second_bind_fails_env (sample_state [])) as W.
  cbv zeta in W. destruct W as (W1 & _ & W4); [discriminate|].
  split; [exact W1|].
  destruct (W4 sample_config eq_refl) as (_ & W). apply W.
  intros (Hb & _). specialize (Hb 1 plain_stanza eq_refl). discriminate Hb.
Defined.

(** The sample run in which the second listener cannot be bound. *)
Lemma run_with_bind_failure_witness :
  flagConfigs (cmd (sample_state [])) <> [] /\
  parseConfig second_bind_fails_env (flagConfigs (cmd (sample_state []))) = inl sample_config /\
  cserver.Listeners sample_config !! 1 = Some plain_stanza /\
  NewListener second_bind_fails_env 1 plain_stanza = Some "address already in use" /\
  (forall j lc', j < 1 -> cserver.Listeners sample_config !! j = Some lc' ->
                 NewListener second_bind_fails_env j lc' = None) /\
  result (RunWithParsedFlags second_bind_fails_env (sample_state [])) = 1%Z /\
  cmd (final (RunWithParsedFlags second_bind_fails_env (sample_state []))) =
    cmd (sample_state []).
Proof.
  assert (Hbefore : forall j lc', j < 1 -> cserver.Listeners sample_config !! j = Some lc' ->
                      NewListener second_bind_fails_env j lc' = None).
  { intros [|j] lc' Hj _; [reflexivity|lia]. }
  split; [discriminate|]. split; [reflexivity|]. split; [reflexivity|].
  split; [reflexivity|]. split; [exact Hbefore|].
  pose proof (run_with_bind_failure second_bind_fails_env (sample_state []) sample_config 1
                plain_stanza "address already in use") as W.
  cbv zeta in W. destruct W as (W1 & W2 & _); [discriminate|reflexivity|reflexivity|reflexivity|exact Hbefore|].
  by split.
Defined.

(** The receiver after the healthy sample run: the guard is released. *)
Lemma receiver_after_run_witness :
  flagConfigs (cmd (sample_state ["storage"])) <> [] /\
  flagSkips (cmd (final (RunWithParsedFlags healthy_env (sample_state ["storage"])))) =
    ["storage"] /\
  sync.done (cleanupGuard
    (cmd (final (RunWithParsedFlags healthy_env (sample_state ["storage"]))))) = true.
Proof.
  split; [discriminate|].
  pose proof (receiver_after_run healthy_env (sample_state ["storage"])) as W.
  cbv zeta in W. destruct W as (_ & W2 & _ & _ & W5).
  split; [exact W2|]. apply W5; [discriminate|].
  right. exists sample_config. split; [reflexivity|exact healthy_all_bind].
Defined.

(** Two healthy sample runs on one command. *)
Lemma second_run_leaves_listeners_open_witness :
  flagConfigs (cmd (sample_state [])) <> [] /\
  parseConfig healthy_env (flagConfigs (cmd (sample_state []))) = inl sample_config /\
  all_bind healthy_env sample_config /\
  opened (trace (RunWithParsedFlags healthy_env
                   (final (RunWithParsedFlags healthy_env (sample_state []))))) = [0; 1] /\
  closed (trace (RunWithParsedFlags healthy_env
                   (final (RunWithParsedFlags healthy_env (sample_state []))))) = [].
Proof.
  split; [discriminate|]. split; [reflexivity|]. split; [exact healthy_all_bind|].
  apply (second_run_leaves_listeners_open healthy_env (sample_state []) sample_config);
    [discriminate|reflexivity|exact healthy_all_bind].
Defined.

(** A command line with an undefined flag, and one without arguments. *)
Lemma Run_reports_iff_flags_usable_witness :
  sample_Parse ["-config=/etc/vault/config.hcl"; "-bogus"] (cmd (sample_state [])) =
    (mkParsedFlags false [] ["/etc/vault/config.hcl"],
     Some "flag provided but not defined: -bogus") /\
  result (Run healthy_env sample_Parse ["-config=/etc/vault/config.hcl"; "-bogus"]
              (sample_state [])) = 1%Z /\
  written (trace (Run healthy_env sample_Parse ["-config=/etc/vault/config.hcl"; "-bogus"]
                      (sample_state []))) = [].
Proof.
  split; [reflexivity|].
  pose proof (Run_reports_iff_flags_usable healthy_env sample_Parse
                ["-config=/etc/vault/config.hcl"; "-bogus"] (sample_state []) _ _ eq_refl) as W.
  cbv zeta in W. destruct W as (W1 & W2 & _).
  split; [apply W2; left; discriminate|apply W1; left; discriminate].
Defined.

(** Two parsers that differ in [-debug] and [-skip] only. *)
Lemma Run_reads_only_config_paths_witness :
  parsedConfigs (sample_Parse ["/etc/vault/config.hcl"] (cmd (sample_state []))).1 =
    parsedConfigs (sample_Parse' ["/etc/vault/config.hcl"] (cmd (sample_state []))).1 /\
  (sample_Parse ["/etc/vault/config.hcl"] (cmd (sample_state []))).2 =
    (sample_Parse' ["/etc/vault/config.hcl"] (cmd (sample_state []))).2 /\
  parsedSkips (sample_Parse ["/etc/vault/config.hcl"] (cmd (sample_state []))).1 <>
    parsedSkips (sample_Parse' ["/etc/vault/config.hcl"] (cmd (sample_state []))).1 /\
  result (Run storage_down_env sample_Parse ["/etc/vault/config.hcl"] (sample_state [])) =
    result (Run storage_down_env sample_Parse' ["/etc/vault/config.hcl"] (sample_state [])) /\
  trace (Run storage_down_env sample_Parse ["/etc/vault/config.hcl"] (sample_state [])) =
    trace (Run storage_down_env sample_Parse' ["/etc/vault/config.hcl"] (sample_state [])).
Proof.
  split; [reflexivity|]. split; [reflexivity|]. split; [discriminate|].
  apply (Run_reads_only_config_paths storage_down_env sample_Parse sample_Parse'
           ["/etc/vault/config.hcl"] (sample_state [])); reflexivity.
Defined.
